(** * tsdat: global attribute validation and the buoy ingest customizer

  A shallow embedding of

  - [tsdat/config/attributes.py]: the pydantic models [AttributeModel] and
    [GlobalAttributes] with their validators, and
  - [examples/a2e_buoy_ingest/pipeline.py]: the hook
    [BuoyIngestPipeline.customize_raw_datasets].

  Python dictionaries are insertion-ordered association lists, Python
  exceptions are the [Err] branch of a result type, warnings and calls to
  helpers that live outside the two files are recorded in an event log. *)

From Stdlib Require Import List String Ascii ZArith Bool Arith Lia DecimalString DecimalNat.
Import ListNotations.
Open Scope string_scope.

(** ** Python dictionaries with string keys *)

Module Dict.
Section Ops.
Context {V : Type}.

Definition t := list (string * V).

(** [d.get(k)] *)
Fixpoint get (k : string) (d : t) : option V :=
  match d with
  | [] => None
  | (k', v) :: d' => if String.eqb k k' then Some v else get k d'
  end.

(** [d[k] = v]: an existing key keeps its position, a new key goes last. *)
Fixpoint set (k : string) (v : V) (d : t) : t :=
  match d with
  | [] => [(k, v)]
  | (k', v') :: d' =>
      if String.eqb k k' then (k', v) :: d' else (k', v') :: set k v d'
  end.

Definition keys (d : t) : list string := map fst d.

(** [k in d] *)
Definition mem (k : string) (d : t) : bool :=
  match get k d with Some _ => true | None => false end.
End Ops.
Arguments t : clear implicits.
End Dict.

(** ** Python strings

  A [string] stands for a Python [str] whose code points are below 256:
  one character per code point, so [String.length] is [len]. *)

Module PyStr.

Definition ascii_char (c : ascii) : bool := Nat.ltb (nat_of_ascii c) 128.

Fixpoint all_chars (p : ascii -> bool) (s : string) : bool :=
  match s with
  | EmptyString => true
  | String c s' => p c && all_chars p s'
  end.

(** [s.isascii()] *)
Definition isascii (s : string) : bool := all_chars ascii_char s.

(** [sub in s] *)
Fixpoint contains (sub s : string) : bool :=
  String.prefix sub s
  || match s with
     | EmptyString => false
     | String _ s' => contains sub s'
     end.

(** [str(n)] for a non-negative integer, as an f-string prints it. *)
Definition of_nat (n : nat) : string := NilEmpty.string_of_uint (Nat.to_uint n).

(** [str(z)] *)
Definition of_Z (z : Z) : string := NilZero.string_of_int (Z.to_int z).

End PyStr.

(** ** Results *)

Inductive result (E A : Type) : Type :=
| Ok (a : A)
| Err (e : E).
Arguments Ok {E A} a.
Arguments Err {E A} e.

Definition bind {E A B : Type} (r : result E A) (k : A -> result E B) : result E B :=
match r with
| Ok a => k a
| Err e => Err e
end.

Declare Scope result_scope.
Delimit Scope result_scope with result.
Notation "x <- r ;; k" := (bind r (fun x => k))
(at level 61, r at next level, right associativity) : result_scope.

(** * tsdat/config/attributes.py *)

Module Attributes.

(** Candidate attribute values, as a configuration file yields them. *)
Inductive value : Type :=
| VNone
| VBool (b : bool)
| VInt (z : Z)
| VStr (s : string).

(** Python truthiness, as in [if v:]. *)
Definition truthy (v : value) : bool :=
  match v with
  | VNone => false
  | VBool b => b
  | VInt z => negb (Z.eqb z 0)
  | VStr s => negb (String.eqb s "")
  end.

(** *** Regular expressions of the field declarations

    The four patterns are of the shape [^C+$] or [^C+D+$] for character
    classes [C] and [D]. *)

Definition in_range (lo hi : string) (c : ascii) : bool :=
  match lo, hi with
  | String l _, String h _ =>
      Nat.leb (nat_of_ascii l) (nat_of_ascii c)
      && Nat.leb (nat_of_ascii c) (nat_of_ascii h)
  | _, _ => false
  end.

Definition lower (c : ascii) : bool := in_range "a" "z" c.
Definition upper (c : ascii) : bool := in_range "A" "Z" c.
Definition digit (c : ascii) : bool := in_range "0" "9" c.
Definition underscore (c : ascii) : bool := Ascii.eqb c "_"%char.

Inductive pattern : Type :=
| Plus1 (c : ascii -> bool)          (* ^C+$ *)
| Plus2 (c d : ascii -> bool).       (* ^C+D+$ *)

(** [s] is a non-empty run of [c]. *)
Definition run1 (c : ascii -> bool) (s : string) : bool :=
  negb (String.eqb s "") && PyStr.all_chars c s.

(** [s] is a non-empty run of [c] followed by a non-empty run of [d];
    [seen] tells whether the first run has started. *)
Fixpoint run2 (c d : ascii -> bool) (seen : bool) (s : string) : bool :=
  match s with
  | EmptyString => false
  | String a s' =>
      (c a && run2 c d true s') || (seen && d a && PyStr.all_chars d s')
  end.

Definition body_match (p : pattern) (s : string) : bool :=
  match p with
  | Plus1 c => run1 c s
  | Plus2 c d => run2 c d false s
  end.

(** [s] without a final line feed, when it has one. *)
Fixpoint chomp (s : string) : option string :=
  match s with
  | EmptyString => None
  | String a EmptyString => if Ascii.eqb a "010"%char then Some "" else None
  | String a s' =>
      match chomp s' with
      | Some r => Some (String a r)
      | None => None
      end
  end.

(** [regex.match(s)]: Python's [$] matches at the end of the string and
    also just before a line feed that ends the string. *)
Definition regex_match (p : pattern) (s : string) : bool :=
  body_match p s
  || match chomp s with
     | Some s' => body_match p s'
     | None => false
     end.

Definition alnum_ (c : ascii) : bool := lower c || upper c || digit c || underscore c.
Definition lower_alnum_ (c : ascii) : bool := lower c || digit c || underscore c.
Definition lower_alnum (c : ascii) : bool := lower c || digit c.
Definition letter (c : ascii) : bool := lower c || upper c.

(** *** Field declarations *)

Inductive ftype : Type :=
| TStr (strict : bool) (min_length max_length : option nat) (regex : option pattern)
| THttpUrl.

Inductive fdefault : Type :=
| Required                      (* no default: the field is required *)
| Default (v : value)
| DefaultFactory.               (* default_factory=get_code_version *)

Record ModelField : Type := {
  name : string;
  type_ : ftype;
  allow_none : bool;            (* Optional[...] *)
  default : fdefault;
  (* @validator(..., pre=True) warn_if_dynamic_properties_are_set *)
  pre_validators : bool
}.

Definition str_ (min max : option nat) (re : option pattern) : ftype :=
  TStr false min max re.
Definition StrictStr : ftype := TStr true None None None.

Definition required (n : string) (t : ftype) : ModelField :=
  {| name := n; type_ := t; allow_none := false; default := Required;
     pre_validators := false |}.
Definition optional (n : string) (t : ftype) : ModelField :=
  {| name := n; type_ := t; allow_none := true; default := Default VNone;
     pre_validators := false |}.

(** [GlobalAttributes.__fields__], in declaration order. *)
Definition fields : list ModelField :=
  [ required "title" (str_ (Some 1) None None);
    required "description" (str_ (Some 1) None None);
    optional "code_url" THttpUrl;
    optional "conventions" StrictStr;
    optional "doi" StrictStr;
    optional "institution" StrictStr;
    optional "references" StrictStr;
    required "location_id" (str_ (Some 1) None (Some (Plus1 alnum_)));
    required "dataset_name" (str_ (Some 2) None (Some (Plus1 lower_alnum_)));
    optional "qualifier" (str_ (Some 1) None (Some (Plus1 alnum_)));
    optional "temporal" (str_ (Some 2) None (Some (Plus2 digit letter)));
    required "data_level" (str_ (Some 2) (Some 3) (Some (Plus1 lower_alnum)));
    {| name := "datastream"; type_ := StrictStr; allow_none := false;
       default := Default (VStr ""); pre_validators := false |};
    {| name := "history"; type_ := StrictStr; allow_none := false;
       default := Default (VStr ""); pre_validators := true |};
    {| name := "code_version"; type_ := StrictStr; allow_none := false;
       default := DefaultFactory; pre_validators := true |} ].

(** *** Errors and events *)

Inductive error : Type :=
| MissingError
| NoneIsNotAllowedError
| StrError
| AnyStrMinLengthError (limit_value : nat)
| AnyStrMaxLengthError (limit_value : nat)
| StrRegexError
| UrlError
(* ValueError(f"'{key}' contains a non-ascii character.") *)
| NonAsciiKey (key : string)
(* ValueError(f"attr '{key}' -> '{value}' contains a non-ascii character.") *)
| NonAsciiValue (key value : string).

(** An [ErrorWrapper]: the location and the error. *)
Definition ErrorWrapper : Type := (string * error)%type.

Definition ROOT_KEY : string := "__root__".

Inductive event : Type :=
(* warnings.warn(f"The '{field.name}' attribute should not be set ...") *)
| Warned (field : string) (v : value)
(* a call of the default factory get_code_version *)
| CodeVersionFactory
(* a call of get_datastream *)
| DatastreamDerived.

(** *** Validation

    [get_code_version] (tsdat/config/utils) reads the environment or the
    version-control history, and pydantic's [HttpUrl] parses a URL: both are
    taken as given.  [get_code_version] is the string the factory returns in
    this process; [http_url s] is the validated URL, or [None] when [s] is
    rejected. *)

Section Model.

Variable get_code_version : string.
Variable http_url : string -> option string.

Local Open Scope result_scope.

(** pydantic's [str_validator]: numbers are coerced with [str]. *)
Definition str_validator (v : value) : result error string :=
  match v with
  | VStr s => Ok s
  | VInt z => Ok (PyStr.of_Z z)
  | VBool b => Ok (if b then "True" else "False")
  | VNone => Err StrError
  end.

Definition strict_str_validator (v : value) : result error string :=
  match v with
  | VStr s => Ok s
  | _ => Err StrError
  end.

Definition constr_length_validator (min_length max_length : option nat) (s : string)
  : result error string :=
  let v_len := String.length s in
  _ <- match min_length with
       | Some n => if Nat.ltb v_len n then Err (AnyStrMinLengthError n) else Ok tt
       | None => Ok tt
       end ;;
  _ <- match max_length with
       | Some n => if Nat.ltb n v_len then Err (AnyStrMaxLengthError n) else Ok tt
       | None => Ok tt
       end ;;
  Ok s.

(** [ConstrainedStr.validate] *)
Definition constr_validate (regex : option pattern) (s : string) : result error string :=
  match regex with
  | Some p => if regex_match p s then Ok s else Err StrRegexError
  | None => Ok s
  end.

(** The validators of a field's type, applied in order; the first failure
    ends the chain. *)
Definition validate_type (t : ftype) (v : value) : result error value :=
  match t with
  | TStr strict min_length max_length regex =>
      s <- (if strict then strict_str_validator v else str_validator v) ;;
      s <- constr_length_validator min_length max_length s ;;
      s <- constr_validate regex s ;;
      Ok (VStr s)
  | THttpUrl =>
      s <- str_validator v ;;
      match http_url s with
      | Some u => Ok (VStr u)
      | None => Err UrlError
      end
  end.

(** [GlobalAttributes.warn_if_dynamic_properties_are_set] *)
Definition warn_if_dynamic_properties_are_set (v : value) (field : ModelField)
  : list event * value :=
  ((if truthy v then [Warned (name field) v] else []), VStr "").

(** [ModelField.validate]: the pre-validators, the [None] test, the
    validators of the type. *)
Definition validate (f : ModelField) (v : value) : list event * result error value :=
  let '(evs, v) :=
    if pre_validators f then warn_if_dynamic_properties_are_set v f else ([], v) in
  (evs,
   match v with
   | VNone => if allow_none f then Ok VNone else Err NoneIsNotAllowedError
   | _ => validate_type (type_ f) v
   end).

(** The state of [validate_model]. *)
Record state : Type := {
  values : Dict.t value;
  fields_set : list string;
  errors : list ErrorWrapper;
  log : list event
}.

Definition init : state :=
  {| values := []; fields_set := []; errors := []; log := [] |}.

(** One round of the loop over [__fields__]. *)
Definition validate_field (input_data : Dict.t value) (st : state) (f : ModelField) : state :=
  match Dict.get (name f) input_data with
  | None =>
      match default f with
      | Required =>
          {| values := values st; fields_set := fields_set st;
             errors := errors st ++ [(name f, MissingError)]; log := log st |}
      | Default v =>
          {| values := Dict.set (name f) v (values st); fields_set := fields_set st;
             errors := errors st; log := log st |}
      | DefaultFactory =>
          {| values := Dict.set (name f) (VStr get_code_version) (values st);
             fields_set := fields_set st;
             errors := errors st; log := log st ++ [CodeVersionFactory] |}
      end
  | Some value =>
      let '(evs, r) := validate f value in
      match r with
      | Ok v_ =>
          {| values := Dict.set (name f) v_ (values st);
             fields_set := fields_set st ++ [name f];
             errors := errors st; log := log st ++ evs |}
      | Err e =>
          {| values := values st; fields_set := fields_set st ++ [name f];
             errors := errors st ++ [(name f, e)]; log := log st ++ evs |}
      end
  end.

Definition in_list (k : string) (l : list string) : bool := existsb (String.eqb k) l.

(** [extra = input_data.keys() - fields_set], visited in the order of the
    input, and [values[f] = input_data[f]] for each ([Extra.allow]). *)
Definition extra (input_data : Dict.t value) (fs : list string) : list string :=
  filter (fun k => negb (in_list k fs)) (Dict.keys input_data).

Definition add_extra (input_data : Dict.t value) (vals : Dict.t value) (f : string)
  : Dict.t value :=
  match Dict.get f input_data with
  | Some v => Dict.set f v vals
  | None => vals
  end.

(** [AttributeModel.validate_all_ascii]: the first offending entry raises. *)
Fixpoint validate_all_ascii_items (items : Dict.t value) : result error unit :=
  match items with
  | [] => Ok tt
  | (key, value) :: items' =>
      if negb (PyStr.isascii key) then Err (NonAsciiKey key)
      else
        match value with
        | VStr s =>
            if negb (PyStr.isascii s) then Err (NonAsciiValue key s)
            else validate_all_ascii_items items'
        | _ => validate_all_ascii_items items'
        end
  end.

Definition validate_all_ascii (vals : Dict.t value) : result error (Dict.t value) :=
  _ <- validate_all_ascii_items vals ;; Ok vals.

(** Modelled from the spec: the datastream deriver [get_datastream] of
    tsdat/utils, which is not among the sources:
    "{location_id}.{dataset_name}{qualifier_suffix}{temporal_suffix}.{data_level}",
    a suffix being "-" and the value when the value is present, else empty. *)
Definition derive_datastream (location_id dataset_name : string)
  (qualifier temporal : option string) (data_level : string) : string :=
  let suffix (o : option string) :=
    match o with Some s => "-" ++ s | None => "" end in
  location_id ++ "." ++ dataset_name ++ suffix qualifier ++ suffix temporal
  ++ "." ++ data_level.

Definition attr_str (k : string) (vals : Dict.t value) : option string :=
  match Dict.get k vals with
  | Some (VStr s) => Some s
  | _ => None
  end.

(** Modelled from the spec: the call of [get_datastream] on the unpacked [values] hands the
    five attributes of the record to the deriver. *)
Definition get_datastream (vals : Dict.t value) : string :=
  let req k := match attr_str k vals with Some s => s | None => "" end in
  derive_datastream (req "location_id") (req "dataset_name")
    (attr_str "qualifier" vals) (attr_str "temporal" vals) (req "data_level").

(** What a root validator may raise: a [ValueError], which [validate_model]
    collects, or a [KeyError], which it does not catch. *)
Inductive root_exn : Type :=
| ValueError (e : error)
| KeyError (key : string).

(** [GlobalAttributes.add_datastream_field] *)
Definition add_datastream_field (vals : Dict.t value)
  : list event * result root_exn (Dict.t value) :=
  match Dict.get "datastream" vals with
  | None => ([], Err (KeyError "datastream"))
  | Some d =>
      if negb (truthy d)
      then ([DatastreamDerived],
            Ok (Dict.set "datastream" (VStr (get_datastream vals)) vals))
      else ([], Ok vals)
  end.

Inductive outcome : Type :=
| Instance (attrs : Dict.t value)
| ValidationError (errs : list ErrorWrapper)
| Uncaught (key : string).

(** The fields and the extra keys: [validate_model] up to the root
    validators. *)
Definition validate_fields (input_data : Dict.t value) : state :=
  let st := fold_left (validate_field input_data) fields init in
  let ex := extra input_data (fields_set st) in
  {| values := fold_left (add_extra input_data) ex (values st);
     fields_set := fields_set st ++ ex;
     errors := errors st; log := log st |}.

(** The constructor of [GlobalAttributes] on the keyword arguments
    [input_data]: [validate_model] and the raise of
    [BaseModel.__init__].  Both root validators are declared with
    [skip_on_failure=True]; the one inherited from [AttributeModel] runs
    first. *)
Definition GlobalAttributes (input_data : Dict.t value) : list event * outcome :=
  let st := validate_fields input_data in
  match errors st with
  | _ :: _ => (log st, ValidationError (errors st))
  | [] =>
      match validate_all_ascii (values st) with
      | Err e => (log st, ValidationError [(ROOT_KEY, e)])
      | Ok vals =>
          match add_datastream_field vals with
          | (evs, Ok vals') => ((log st ++ evs)%list, Instance vals')
          | (evs, Err (ValueError e)) =>
              ((log st ++ evs)%list, ValidationError [(ROOT_KEY, e)])
          | (evs, Err (KeyError k)) => ((log st ++ evs)%list, Uncaught k)
          end
      end
  end.

(** *** The outcome of one field

    [resolve] is what the loop of [validate_model] finds for a single field,
    apart from the state: the events, and the value that is stored or the
    error that is recorded. *)
Definition resolve (input_data : Dict.t value) (f : ModelField)
  : list event * result error value :=
  match Dict.get (name f) input_data with
  | None =>
      match default f with
      | Required => ([], Err MissingError)
      | Default v => ([], Ok v)
      | DefaultFactory => ([CodeVersionFactory], Ok (VStr get_code_version))
      end
  | Some v => validate f v
  end.

(** The error of a field, if it fails. *)
Definition step_errors (input_data : Dict.t value) (f : ModelField) : list ErrorWrapper :=
  match snd (resolve input_data f) with
  | Ok _ => []
  | Err e => [(name f, e)]
  end.

(** The errors of the fields that fail, one for each, in declaration
    order. *)
Definition field_errors (input_data : Dict.t value) : list ErrorWrapper :=
  flat_map (step_errors input_data) fields.

End Model.

Definition field_names : list string := map name fields.


(** An entry of a record that the ASCII rule refuses. *)
Definition non_ascii_entry (kv : string * value) : bool :=
  negb (PyStr.isascii (fst kv))
  || match snd kv with
     | VStr s => negb (PyStr.isascii s)
     | _ => false
     end.

End Attributes.

(** * examples/a2e_buoy_ingest/pipeline.py *)

Module Pipeline.

Local Open Scope result_scope.

(** *** numpy arrays

    An array is its shape and its elements in row-major order.  The hook
    never computes with the elements (readings in mm/s and degrees, and the
    depths it builds), it only moves them: they are integers here. *)

Record ndarray : Type := {
  shape : list nat;
  flat : list Z
}.

Definition ndim (a : ndarray) : nat := List.length (shape a).

Definition size_of (s : list nat) : nat := fold_right Nat.mul 1 s.

(** The offset of a multi-index in row-major order. *)
Fixpoint ravel (s idx : list nat) : nat :=
  match s, idx with
  | _ :: s', i :: idx' => i * size_of s' + ravel s' idx'
  | _, _ => 0
  end.

(** [a[idx]] *)
Definition item (a : ndarray) (idx : list nat) : Z :=
  nth (ravel (shape a) idx) (flat a) 0%Z.

(** All multi-indices of a shape, in row-major order. *)
Fixpoint indices (s : list nat) : list (list nat) :=
  match s with
  | [] => [[]]
  | n :: s' => flat_map (fun i => map (cons i) (indices s')) (seq 0 n)
  end.

(** [a.transpose()]: the axes are reversed. *)
Definition transpose (a : ndarray) : ndarray :=
  {| shape := rev (shape a);
     flat := map (fun idx => item a (rev idx)) (indices (rev (shape a))) |}.

(** What the hook can raise.  All but the last two are [ValueError]s of
    xarray and numpy; [Unfinished] is not an exception: it marks a loop that
    was cut off by its bound. *)
Inductive exn : Type :=
(* cannot rename %r because it is not a variable or coordinate in this dataset *)
| CannotRename (name : string)
(* the new name %r conflicts *)
| NameConflict (name : string)
(* One or more of the specified variables cannot be found in this dataset *)
| NotInDataset (name : string)
(* different number of dimensions on data and dims *)
| DimsMismatch (data_ndim dims_len : nat)
(* conflicting sizes for dimension %r *)
| ConflictingSizes
(* setting an array element with a sequence: inhomogeneous shape *)
| Inhomogeneous
| KeyError (key : string)
| Unfinished.

Definition shape_eqb (s s' : list nat) : bool :=
  if list_eq_dec Nat.eq_dec s s' then true else false.

(** [np.array(l)] for a list of arrays: arrays of one shape are stacked
    along a new leading axis; the empty list gives a one-dimensional array
    of length 0.  Arrays of different shapes are refused (older numpy builds
    a one-dimensional array of objects instead, which [DataArray] refuses
    two lines later). *)
Definition np_array (l : list ndarray) : result exn ndarray :=
  match l with
  | [] => Ok {| shape := [0]; flat := [] |}
  | a :: _ =>
      if forallb (fun b => shape_eqb (shape b) (shape a)) l
      then Ok {| shape := List.length l :: shape a; flat := List.concat (map flat l) |}
      else Err Inhomogeneous
  end.

(** [np.array(l)] for a list of integers. *)
Definition np_array_ints (l : list Z) : ndarray :=
  {| shape := [List.length l]; flat := l |}.

(** *** xarray datasets

    A variable is an array with one dimension name per axis; a dataset is
    its variables (data variables and coordinates alike) and the names of
    those that are coordinates. *)

Record XVariable : Type := {
  dims : list string;
  data : ndarray
}.

Record Dataset : Type := {
  variables : Dict.t XVariable;
  coord_names : list string
}.

Definition in_list (k : string) (l : list string) : bool := existsb (String.eqb k) l.

Definition add_name (k : string) (l : list string) : list string :=
  if in_list k l then l else (l ++ [k])%list.

(** [xr.DataArray(data=data, dims=dims)] *)
Definition DataArray (data : ndarray) (dims : list string) : result exn XVariable :=
  if Nat.eqb (List.length dims) (ndim data)
  then Ok {| dims := dims; data := data |}
  else Err (DimsMismatch (ndim data) (List.length dims)).

(** [dataset[name].data] *)
Definition getitem_data (dataset : Dataset) (name : string) : result exn ndarray :=
  match Dict.get name (variables dataset) with
  | Some v => Ok (data v)
  | None => Err (KeyError name)
  end.

(** The loop of [Dataset._rename_vars] over the variables. *)
Fixpoint _rename_vars (name_dict : Dict.t string) (old_coords : list string)
  (items : Dict.t XVariable) (vars : Dict.t XVariable) (coords : list string)
  : result exn (Dict.t XVariable * list string) :=
  match items with
  | [] => Ok (vars, coords)
  | (k, v) :: items' =>
      let name := match Dict.get k name_dict with Some n => n | None => k end in
      if Dict.mem name vars then Err (NameConflict name)
      else _rename_vars name_dict old_coords items' (Dict.set name v vars)
             (if in_list k old_coords then add_name name coords else coords)
  end.

(** [dataset.rename_vars(name_dict)]: every key must name a variable of the
    dataset. *)
Definition rename_vars (dataset : Dataset) (name_dict : Dict.t string)
  : result exn Dataset :=
  match find (fun k => negb (Dict.mem k (variables dataset))) (Dict.keys name_dict) with
  | Some k => Err (CannotRename k)
  | None =>
      r <- _rename_vars name_dict (coord_names dataset) (variables dataset) [] [] ;;
      Ok {| variables := fst r; coord_names := snd r |}
  end.

(** The name of a variable after the renaming: [name_dict.get(k, k)]. *)
Definition renamed (name_dict : Dict.t string) (k : string) : string :=
  match Dict.get k name_dict with
  | Some n => n
  | None => k
  end.

(** [dataset.set_coords(name)] *)
Definition set_coords (dataset : Dataset) (name : string) : result exn Dataset :=
  if Dict.mem name (variables dataset)
  then Ok {| variables := variables dataset;
             coord_names := add_name name (coord_names dataset) |}
  else Err (NotInDataset name).

(** The dimensions of a variable with their sizes, and those of all
    variables. *)
Definition var_sizes (v : XVariable) : list (string * nat) :=
  combine (dims v) (shape (data v)).

Definition all_sizes (vars : Dict.t XVariable) : list (string * nat) :=
  flat_map (fun kv => var_sizes (snd kv)) vars.

Definition agree (p q : string * nat) : bool :=
  negb (String.eqb (fst p) (fst q)) || Nat.eqb (snd p) (snd q).

(** [calculate_dimensions]: a dimension has one size. *)
Definition consistent (sizes : list (string * nat)) : bool :=
  forallb (fun p => forallb (agree p) sizes) sizes.

(** A variable named as its only dimension is the index of the dimension. *)
Definition index_size (vars : Dict.t XVariable) (d : string) : option nat :=
  match Dict.get d vars with
  | Some w =>
      match dims w, shape (data w) with
      | [d'], [n] => if String.eqb d d' then Some n else None
      | _, _ => None
      end
  | None => None
  end.

(** The new variable is aligned with the indexes of the dataset. *)
Definition aligned (vars : Dict.t XVariable) (v : XVariable) : bool :=
  forallb (fun p => match index_size vars (fst p) with
                    | Some n => Nat.eqb n (snd p)
                    | None => true
                    end) (var_sizes v).

(** [dataset[key] = v]: the variable is aligned with the dataset, it
    replaces a variable of that name, the dimensions are recomputed, and
    every variable that is named as a dimension is a coordinate. *)
Definition setitem (dataset : Dataset) (key : string) (v : XVariable)
  : result exn Dataset :=
  if negb (aligned (variables dataset) v) then Err ConflictingSizes
  else
    let vars := Dict.set key v (variables dataset) in
    if negb (consistent (all_sizes vars)) then Err ConflictingSizes
    else
      let dim_names := filter (fun d => Dict.mem d vars) (map fst (all_sizes vars)) in
      Ok {| variables := vars;
            coord_names := fold_left (fun l d => add_name d l) dim_names
                             (coord_names dataset) |}.

(** The data of a variable of the dataset; the empty array when the
    dataset has no such variable. *)
Definition var_data (dataset : Dataset) (name : string) : ndarray :=
  match Dict.get name (variables dataset) with
  | Some v => data v
  | None => {| shape := [0]; flat := [] |}
  end.





(** The depths of [k] pairs from index [i] on: 4 metres apart. *)
Definition depths (i k : nat) : list Z :=
  map (fun j => (4 * (Z.of_nat j + 1))%Z) (seq i k).

(** *** The hook *)

Definition vel_name (index : nat) : string :=
  "Vel" ++ PyStr.of_nat (index + 1) ++ " (mm/s)".
Definition dir_name (index : nat) : string :=
  "Dir" ++ PyStr.of_nat (index + 1) ++ " (deg)".

(** The local function [has_vel_and_dir]. *)
Definition has_vel_and_dir (dataset : Dataset) (index : nat) : bool :=
  let has_vel := Dict.mem (vel_name index) (variables dataset) in
  let has_dir := Dict.mem (dir_name index) (variables dataset) in
  has_vel && has_dir.

(** The lists [depth], [vel_data] and [dir_data] of the loop. *)
Record collected : Type := {
  depth : list Z;
  vel_data : list ndarray;
  dir_data : list ndarray
}.

(** The [while] loop from index [i] on, cut off after [bound] rounds. *)
Fixpoint collect (bound : nat) (dataset : Dataset) (i : nat) (acc : collected)
  : result exn collected :=
  match bound with
  | 0 => Err Unfinished
  | S bound' =>
      if has_vel_and_dir dataset i then
        v <- getitem_data dataset (vel_name i) ;;
        d <- getitem_data dataset (dir_name i) ;;
        collect bound' dataset (i + 1)
          {| depth := (depth acc ++ [4 * (Z.of_nat i + 1)])%Z%list;
             vel_data := (vel_data acc ++ [v])%list;
             dir_data := (dir_data acc ++ [d])%list |}
      else Ok acc
  end.

(** The body of [if "currents" in filename:].  The names found by the loop
    are pairwise different names of variables, so one round more than there
    are variables is enough for the loop. *)
Definition currents (time_input_name : string) (dataset : Dataset) : result exn Dataset :=
  acc <- collect (S (List.length (variables dataset))) dataset 0
           {| depth := []; vel_data := []; dir_data := [] |} ;;
  let depth := np_array_ints (depth acc) in
  vel_arr <- np_array (vel_data acc) ;;
  let vel_data := transpose vel_arr in
  dir_arr <- np_array (dir_data acc) ;;
  let dir_data := transpose dir_arr in
  dataset <- set_coords dataset time_input_name ;;
  v <- DataArray depth ["depth"] ;;
  dataset <- setitem dataset "depth" v ;;
  dataset <- set_coords dataset "depth" ;;
  v <- DataArray vel_data ["time"; "depth"] ;;
  dataset <- setitem dataset "current_velocity" v ;;
  v <- DataArray dir_data ["time"; "depth"] ;;
  dataset <- setitem dataset "current_direction" v ;;
  Ok dataset.

Definition surfacetemp_mapping : Dict.t string :=
  [("Surface Temperature (C)", "surfacetemp - Surface Temperature (C)")].

Definition name_mapping : Dict.t string :=
  [("Horizontal Speed (m/s)", "gill_horizontal_wind_speed");
   ("Horizontal Direction (deg)", "gill_horizontal_wind_direction")].

(** A key that no rule of the hook applies to. *)
Definition no_rule (filename : string) : Prop :=
  PyStr.contains "surfacetemp" filename = false
  /\ PyStr.contains "gill" filename = false
  /\ PyStr.contains "currents" filename = false.

(** The arrays of the velocities and of the directions of the first [k]
    pairs. *)
Definition vel_columns (dataset : Dataset) (k : nat) : list ndarray :=
  map (fun j => var_data dataset (vel_name j)) (seq 0 k).
Definition dir_columns (dataset : Dataset) (k : nat) : list ndarray :=
  map (fun j => var_data dataset (dir_name j)) (seq 0 k).

(** One round of [for filename, dataset in raw_dataset_mapping.items()].
    [dataset] is the loop variable: the first two branches read it and
    store their result in the mapping without assigning it, the third
    rebinds it.  [entry] stands for [raw_dataset_mapping[filename]], whose
    final value is the result. *)
Definition customize (time_input_name : string) (filename : string) (dataset : Dataset)
  : result exn Dataset :=
  let entry := dataset in
  entry <- (if PyStr.contains "surfacetemp" filename
            then rename_vars dataset surfacetemp_mapping
            else Ok entry) ;;
  entry <- (if PyStr.contains "gill" filename
            then rename_vars dataset name_mapping
            else Ok entry) ;;
  entry <- (if PyStr.contains "currents" filename
            then currents time_input_name dataset
            else Ok entry) ;;
  Ok entry.

(** The loop over the items of the mapping; an exception ends it. *)
Fixpoint customize_items (time_input_name : string) (items : Dict.t Dataset)
  (raw_dataset_mapping : Dict.t Dataset) : result exn (Dict.t Dataset) :=
  match items with
  | [] => Ok raw_dataset_mapping
  | (filename, dataset) :: items' =>
      entry <- customize time_input_name filename dataset ;;
      customize_items time_input_name items' (Dict.set filename entry raw_dataset_mapping)
  end.

(** [BuoyIngestPipeline.customize_raw_datasets]; [time_input_name] is
    [self.config.dataset_definition.get_variable("time").get_input_name()]. *)
Definition customize_raw_datasets (time_input_name : string)
  (raw_dataset_mapping : Dict.t Dataset) : result exn (Dict.t Dataset) :=
  customize_items time_input_name raw_dataset_mapping raw_dataset_mapping.

End Pipeline.

(** * Concrete inputs *)

Module Examples.
Import Attributes.

(** What [get_code_version] returns in the examples. *)
Definition code_version : string := "1.2.3".

(** A stand-in for [HttpUrl] in the examples: the scheme is tested. *)
Definition http_url (s : string) : option string :=
  if String.prefix "http://" s || String.prefix "https://" s then Some s else None.

(** U+00E9, a code point that is not ASCII. *)
Definition e_acute : string := String (ascii_of_nat 233) "".

Definition base : Dict.t value :=
  [("title", VStr "Buoy data"); ("description", VStr "Buoy measurements");
   ("location_id", VStr "WHOI"); ("dataset_name", VStr "buoy");
   ("data_level", VStr "a1")].

Definition with_custom_datastream : Dict.t value :=
  (base ++ [("datastream", VStr "custom.id.a1")])%list.

(** The record of the defaults that [base] leaves to the model. *)
Definition instance_of_base (datastream history code_version : string) : Dict.t value :=
  [("title", VStr "Buoy data"); ("description", VStr "Buoy measurements");
   ("code_url", VNone); ("conventions", VNone); ("doi", VNone);
   ("institution", VNone); ("references", VNone); ("location_id", VStr "WHOI");
   ("dataset_name", VStr "buoy"); ("qualifier", VNone); ("temporal", VNone);
   ("data_level", VStr "a1"); ("datastream", VStr datastream);
   ("history", VStr history); ("code_version", VStr code_version)].

Definition with_qualifier_temporal : Dict.t value :=
  (base ++ [("qualifier", VStr "east"); ("temporal", VStr "10m")])%list.


Definition with_non_ascii_history : Dict.t value :=
  (base ++ [("history", VStr e_acute)])%list.

Definition with_non_ascii_extra : Dict.t value :=
  (base ++ [("comment", VStr e_acute)])%list.

Definition with_code_version : Dict.t value :=
  (base ++ [("code_version", VStr "0.9.0")])%list.

Definition with_extra : Dict.t value :=
  (base ++ [("platform", VStr "buoy z05"); ("deployment", VInt 3)])%list.

(** Raw datasets: every variable is a column along the dimension
    [index]. *)
Definition col (l : list Z) : Pipeline.XVariable :=
  {| Pipeline.dims := ["index"]; Pipeline.data := Pipeline.np_array_ints l |}.

Definition time_input_name : string := "DataTimeStamp".

Definition two_pairs : Pipeline.Dataset :=
  {| Pipeline.variables :=
       [("DataTimeStamp", col [100; 200; 300]%Z);
        ("Vel1 (mm/s)", col [1; 2; 3]%Z); ("Dir1 (deg)", col [11; 12; 13]%Z);
        ("Vel2 (mm/s)", col [21; 22; 23]%Z); ("Dir2 (deg)", col [31; 32; 33]%Z);
        ("Vel4 (mm/s)", col [41; 42; 43]%Z)];
     Pipeline.coord_names := [] |}.

(** A velocity without its direction. *)
Definition only_vel1 : Pipeline.Dataset :=
  {| Pipeline.variables :=
       [("DataTimeStamp", col [100; 200; 300]%Z); ("Vel1 (mm/s)", col [1; 2; 3]%Z)];
     Pipeline.coord_names := [] |}.

(** Neither a velocity nor a direction. *)
Definition no_pairs : Pipeline.Dataset :=
  {| Pipeline.variables :=
       [("DataTimeStamp", col [100; 200; 300]%Z); ("Battery (V)", col [12; 12; 11]%Z)];
     Pipeline.coord_names := [] |}.

Definition currents_file : string := "buoy.z05.00.20201201.000000.currents.csv".
Definition surfacetemp_file : string := "buoy.z05.00.20201201.000000.surfacetemp.csv".
Definition gill_file : string := "buoy.z05.00.20201201.000000.gill.csv".
(** A key that contains two of the substrings. *)
Definition surfacetemp_gill_file : string :=
  "buoy.z05.00.20201201.000000.surfacetemp.gill.csv".

(** The source variables of the surfacetemp and gill rules. *)
Definition met : Pipeline.Dataset :=
  {| Pipeline.variables :=
       [("DataTimeStamp", col [100; 200; 300]%Z);
        ("Surface Temperature (C)", col [9; 9; 8]%Z);
        ("Horizontal Speed (m/s)", col [5; 6; 7]%Z);
        ("Horizontal Direction (deg)", col [180; 181; 182]%Z)];
     Pipeline.coord_names := [] |}.

(** [met] after the gill rule. *)
Definition met_gill : Pipeline.Dataset :=
  {| Pipeline.variables :=
       [("DataTimeStamp", col [100; 200; 300]%Z);
        ("Surface Temperature (C)", col [9; 9; 8]%Z);
        ("gill_horizontal_wind_speed", col [5; 6; 7]%Z);
        ("gill_horizontal_wind_direction", col [180; 181; 182]%Z)];
     Pipeline.coord_names := [] |}.

Definition met_file : string := "buoy.z05.00.20201201.000000.met.csv".

End Examples.

(** * Facts about dictionaries *)

Module DictFacts.
Section Facts.
Context {V : Type}.
Implicit Types (d : Dict.t V) (k : string) (v : V).

Lemma get_set_eq k v d : Dict.get k (Dict.set k v d) = Some v.
Proof.
  induction d as [|[k' v'] d IH]; simpl.
  - now rewrite String.eqb_refl.
  - destruct (String.eqb k k') eqn:E; simpl; rewrite E; auto.
Qed.

Lemma get_set_ne k k' v d : k <> k' -> Dict.get k (Dict.set k' v d) = Dict.get k d.
Proof.
  intros N. induction d as [|[k0 v0] d IH]; simpl.
  - destruct (String.eqb_spec k k'); congruence.
  - destruct (String.eqb_spec k' k0); simpl.
    + subst. destruct (String.eqb_spec k k0); congruence.
    + now rewrite IH.
Qed.

Lemma get_In k v d : Dict.get k d = Some v -> In (k, v) d.
Proof.
  induction d as [|[k' v'] d IH]; simpl; [discriminate|].
  destruct (String.eqb_spec k k'); intros H.
  - left. congruence.
  - right. auto.
Qed.

Lemma get_None k d : Dict.get k d = None <-> ~ In k (Dict.keys d).
Proof.
  induction d as [|[k' v'] d IH]; simpl.
  - tauto.
  - destruct (String.eqb_spec k k').
    + split; [discriminate | intros H; exfalso; apply H; auto].
    + rewrite IH. intuition congruence.
Qed.

Lemma In_keys_get k d : In k (Dict.keys d) -> exists v, Dict.get k d = Some v.
Proof.
  intros H. destruct (Dict.get k d) eqn:E; [eauto|].
  apply get_None in E. contradiction.
Qed.

Lemma mem_In k d : Dict.mem k d = true <-> In k (Dict.keys d).
Proof.
  unfold Dict.mem. destruct (Dict.get k d) eqn:E.
  - split; auto. intros _. destruct (get_None k d) as [_ H].
    destruct (in_dec string_dec k (Dict.keys d)); auto.
    rewrite H in E; [discriminate | assumption].
  - apply get_None in E. split; [discriminate | contradiction].
Qed.

Lemma keys_set k v d :
  Dict.keys (Dict.set k v d) = if Dict.mem k d then Dict.keys d else (Dict.keys d ++ [k])%list.
Proof.
  unfold Dict.mem. induction d as [|[k' v'] d IH]; simpl; auto.
  destruct (String.eqb_spec k k'); simpl; auto.
  unfold Dict.keys in *. rewrite IH. destruct (Dict.get k d); auto.
Qed.

Lemma In_set kv k v d : In kv (Dict.set k v d) -> kv = (k, v) \/ In kv d.
Proof.
  induction d as [|[k' v'] d IH]; simpl.
  - intros [H|[]]; auto.
  - destruct (String.eqb_spec k k'); simpl; intros [H|H]; subst; auto.
    destruct (IH H); auto.
Qed.

End Facts.
End DictFacts.

(** * Facts about the attribute model *)

Module AttributesFacts.
Import Attributes.

Section Facts.

Variable get_code_version : string.
Variable http_url : string -> option string.

#[local] Abbreviation resolve := (resolve get_code_version http_url).
#[local] Abbreviation validate_field := (validate_field get_code_version http_url).
#[local] Abbreviation validate_fields := (validate_fields get_code_version http_url).
#[local] Abbreviation field_errors := (field_errors get_code_version http_url).
#[local] Abbreviation GlobalAttributes := (GlobalAttributes get_code_version http_url).
#[local] Abbreviation step_errors := (step_errors get_code_version http_url).

Implicit Types (input : Dict.t value) (st : state) (f : ModelField).

(** One round of the field loop, in terms of [resolve]. *)
Lemma validate_field_resolve input st f :
  validate_field input st f =
  {| values := match snd (resolve input f) with
               | Ok v => Dict.set (name f) v (values st)
               | Err _ => values st
               end;
     fields_set := fields_set st ++ (if Dict.mem (name f) input then [name f] else []);
     errors := errors st ++ match snd (resolve input f) with
                            | Ok _ => []
                            | Err e => [(name f, e)]
                            end;
     log := log st ++ fst (resolve input f) |}.
Proof.
  unfold Attributes.validate_field, Attributes.resolve, Dict.mem.
  destruct (Dict.get (name f) input) as [v|].
  - destruct (validate http_url f v) as [evs [w|e]]; simpl; now rewrite ?app_nil_r.
  - destruct (default f); simpl; now rewrite ?app_nil_r.
Qed.

Lemma errors_fold input fs : forall st,
  errors (fold_left (validate_field input) fs st)
  = (errors st ++ flat_map (step_errors input) fs)%list.
Proof.
  induction fs as [|f fs IH]; intros st; simpl.
  - now rewrite app_nil_r.
  - rewrite IH, validate_field_resolve; simpl. now rewrite <- app_assoc.
Qed.

Lemma log_fold input fs : forall st,
  log (fold_left (validate_field input) fs st)
  = (log st ++ flat_map (fun f => fst (resolve input f)) fs)%list.
Proof.
  induction fs as [|f fs IH]; intros st; simpl.
  - now rewrite app_nil_r.
  - rewrite IH, validate_field_resolve; simpl. now rewrite <- app_assoc.
Qed.

Lemma fields_set_fold input fs : forall st,
  fields_set (fold_left (validate_field input) fs st)
  = (fields_set st ++ filter (fun n => Dict.mem n input) (map name fs))%list.
Proof.
  induction fs as [|f fs IH]; intros st; simpl.
  - now rewrite app_nil_r.
  - rewrite IH, validate_field_resolve; simpl. rewrite <- app_assoc.
    now destruct (Dict.mem (name f) input).
Qed.

Lemma values_fold_other input k fs : forall st,
  ~ In k (map name fs) ->
  Dict.get k (values (fold_left (validate_field input) fs st)) = Dict.get k (values st).
Proof.
  induction fs as [|f fs IH]; intros st N; simpl; auto.
  simpl in N. rewrite IH by tauto. rewrite validate_field_resolve; simpl.
  destruct (snd (resolve input f)); auto.
  apply DictFacts.get_set_ne. intros ->. tauto.
Qed.

Lemma values_fold_field input f v fs : forall st,
  NoDup (map name fs) -> In f fs -> snd (resolve input f) = Ok v ->
  Dict.get (name f) (values (fold_left (validate_field input) fs st)) = Some v.
Proof.
  induction fs as [|g fs IH]; intros st ND I R; simpl in *; [contradiction|].
  inversion ND as [|? ? Hg ND']; subst.
  destruct I as [->|I].
  - rewrite values_fold_other by assumption.
    rewrite validate_field_resolve; simpl. rewrite R.
    apply DictFacts.get_set_eq.
  - now apply IH.
Qed.

(** The extra keys. *)
Lemma add_extra_fold_other input k ex : forall vals,
  ~ In k ex ->
  Dict.get k (fold_left (add_extra input) ex vals) = Dict.get k vals.
Proof.
  induction ex as [|e ex IH]; intros vals N; simpl; auto.
  simpl in N. rewrite IH by tauto. unfold add_extra.
  destruct (Dict.get e input); auto.
  apply DictFacts.get_set_ne. intros ->. tauto.
Qed.

Lemma add_extra_fold input k ex : forall vals,
  (forall e, In e ex -> In e (Dict.keys input)) ->
  In k ex \/ Dict.get k vals = Dict.get k input ->
  Dict.get k (fold_left (add_extra input) ex vals) = Dict.get k input.
Proof.
  induction ex as [|e ex IH]; intros vals K H; simpl.
  - destruct H as [[]|H]; exact H.
  - apply IH; [intros; apply K; now right|].
    destruct (string_dec k e) as [->|N].
    + right. destruct (DictFacts.In_keys_get e input) as [v Hv]; [apply K; now left|].
      unfold add_extra. rewrite Hv. now rewrite DictFacts.get_set_eq.
    + destruct H as [[E|I]|H]; [congruence | now left | right].
      unfold add_extra. destruct (Dict.get e input); auto.
      now rewrite DictFacts.get_set_ne.
Qed.

Lemma in_list_In k l : Attributes.in_list k l = true <-> In k l.
Proof.
  unfold Attributes.in_list. rewrite existsb_exists. split.
  - intros (x & I & E). apply String.eqb_eq in E. now subst.
  - intros I. exists k. split; auto. apply String.eqb_refl.
Qed.

Lemma fields_set_spec input k :
  In k (fields_set (fold_left (validate_field input) fields init))
  <-> In k field_names /\ In k (Dict.keys input).
Proof.
  rewrite fields_set_fold. change (fields_set init) with (@nil string).
  rewrite app_nil_l, filter_In. now rewrite DictFacts.mem_In.
Qed.

Lemma extra_spec input k :
  In k (extra input (fields_set (fold_left (validate_field input) fields init)))
  <-> In k (Dict.keys input) /\ ~ In k field_names.
Proof.
  unfold extra. rewrite filter_In, negb_true_iff, <- not_true_iff_false.
  rewrite in_list_In, fields_set_spec. tauto.
Qed.

Lemma NoDup_field_names : NoDup field_names.
Proof.
  unfold field_names; simpl.
  repeat (constructor; [simpl; intuition discriminate|]). constructor.
Qed.

Lemma validate_fields_eq input :
  validate_fields input
  = let st := fold_left (validate_field input) fields init in
    let ex := extra input (fields_set st) in
    {| values := fold_left (add_extra input) ex (values st);
       fields_set := (fields_set st ++ ex)%list;
       errors := errors st; log := log st |}.
Proof. reflexivity. Qed.

Lemma values_mk a b c d :
  values {| values := a; fields_set := b; errors := c; log := d |} = a.
Proof. reflexivity. Qed.

Lemma errors_mk a b c d :
  errors {| values := a; fields_set := b; errors := c; log := d |} = c.
Proof. reflexivity. Qed.

Lemma log_mk a b c d :
  log {| values := a; fields_set := b; errors := c; log := d |} = d.
Proof. reflexivity. Qed.

Lemma values_validate_fields input :
  values (validate_fields input)
  = fold_left (add_extra input)
      (extra input (fields_set (fold_left (validate_field input) fields init)))
      (values (fold_left (validate_field input) fields init)).
Proof. rewrite validate_fields_eq. apply values_mk. Qed.

(** The record before the root validators: a field that resolves holds
    its value, and a key that is no field holds what the input gives. *)
Lemma values_field input f v :
  In f fields -> snd (resolve input f) = Ok v ->
  Dict.get (name f) (values (validate_fields input)) = Some v.
Proof.
  intros I R. rewrite values_validate_fields.
  rewrite add_extra_fold_other.
  - apply values_fold_field; auto. apply NoDup_field_names.
  - rewrite extra_spec. intros [_ N]. apply N. now apply in_map.
Qed.

Lemma values_extra input k :
  ~ In k field_names ->
  Dict.get k (values (validate_fields input)) = Dict.get k input.
Proof.
  intros N. rewrite values_validate_fields.
  destruct (in_dec string_dec k (Dict.keys input)) as [I|I].
  - apply add_extra_fold.
    + intros e He. now apply extra_spec in He.
    + left. now apply extra_spec.
  - rewrite add_extra_fold_other by (rewrite extra_spec; tauto).
    rewrite values_fold_other by assumption.
    symmetry. now apply DictFacts.get_None.
Qed.

Lemma errors_validate_fields input :
  errors (validate_fields input) = field_errors input.
Proof.
  rewrite validate_fields_eq. cbv zeta. rewrite errors_mk.
  rewrite errors_fold. apply app_nil_l.
Qed.

Lemma log_validate_fields input :
  log (validate_fields input) = flat_map (fun f => fst (resolve input f)) fields.
Proof.
  rewrite validate_fields_eq. cbv zeta. rewrite log_mk.
  rewrite log_fold. apply app_nil_l.
Qed.

#[local] Opaque Attributes.validate_fields.

Lemma flat_map_nil {A B} (g : A -> list B) l :
  flat_map g l = [] -> forall x, In x l -> g x = [].
Proof.
  induction l as [|a l IH]; simpl; intros H x I; [contradiction|].
  apply app_eq_nil in H. destruct H, I; subst; auto.
Qed.

Lemma no_errors_resolve input f :
  field_errors input = [] -> In f fields -> exists v, snd (resolve input f) = Ok v.
Proof.
  intros H I. pose proof (flat_map_nil _ _ H f I) as E.
  unfold Attributes.step_errors in E.
  destruct (snd (resolve input f)); [eauto | discriminate].
Qed.


(** *** What a field can resolve to *)


Lemma constr_length_validator_id mn mx s t :
  constr_length_validator mn mx s = Ok t -> t = s.
Proof.
  unfold constr_length_validator, bind.
  destruct mn as [n|]; [destruct (Nat.ltb _ n); [discriminate|]|];
    (destruct mx as [m|]; [destruct (Nat.ltb m _); [discriminate|]|]);
    intros E; now inversion E.
Qed.

Lemma constr_validate_id re s t : constr_validate re s = Ok t -> t = s.
Proof.
  unfold constr_validate. destruct re as [p|]; [destruct (regex_match p s)|];
    intros E; now inversion E.
Qed.

(** The validators of a string type leave a string as it is. *)
Lemma validate_type_str_id strict mn mx re s w :
  validate_type http_url (TStr strict mn mx re) (VStr s) = Ok w -> w = VStr s.
Proof.
  unfold validate_type, bind.
  replace (if strict then strict_str_validator (VStr s) else str_validator (VStr s))
    with (@Ok error string s) by now destruct strict.
  destruct (constr_length_validator mn mx s) as [t|] eqn:L; [|discriminate].
  apply constr_length_validator_id in L. subst t.
  destruct (constr_validate re s) as [t|] eqn:R; [|discriminate].
  apply constr_validate_id in R. subst t. intros E. now inversion E.
Qed.

Lemma validate_plain_str f s v :
  pre_validators f = false ->
  (exists strict mn mx re, type_ f = TStr strict mn mx re) ->
  snd (validate http_url f (VStr s)) = Ok v -> v = VStr s.
Proof.
  intros P (strict & mn & mx & re & T). unfold validate. rewrite P, T.
  apply validate_type_str_id.
Qed.

Lemma validate_events f v e :
  In e (fst (validate http_url f v)) ->
  pre_validators f = true /\ truthy v = true /\ e = Warned (name f) v.
Proof.
  unfold validate, warn_if_dynamic_properties_are_set.
  destruct (pre_validators f); simpl; [|tauto].
  destruct (truthy v); simpl; [|tauto].
  intros [<-|[]]. auto.
Qed.

Lemma resolve_events input f e :
  In e (fst (resolve input f)) ->
  (e = CodeVersionFactory /\ default f = DefaultFactory
   /\ Dict.get (name f) input = None)
  \/ (exists v, e = Warned (name f) v /\ Dict.get (name f) input = Some v
                /\ truthy v = true /\ pre_validators f = true).
Proof.
  unfold Attributes.resolve.
  destruct (Dict.get (name f) input) as [v|].
  - intros H. apply validate_events in H. right. exists v. tauto.
  - destruct (default f); simpl; try tauto.
    intros [<-|[]]. auto.
Qed.


Lemma pre_validated_field f :
  In f fields -> pre_validators f = true ->
  f = nth 13 fields f \/ f = nth 14 fields f.
Proof.
  unfold fields. simpl. intros I D.
  repeat (destruct I as [<-|I]; [try discriminate D; auto|]).
  contradiction.
Qed.

(** *** The constructor, case by case *)

Lemma ascii_items_spec items :
  validate_all_ascii_items items = Ok tt <-> existsb non_ascii_entry items = false.
Proof.
  induction items as [|[k v] items IH]; simpl; [tauto|].
  unfold non_ascii_entry at 1; simpl.
  destruct (PyStr.isascii k); simpl; [|split; discriminate].
  destruct v as [| | |s]; simpl; auto.
  destruct (PyStr.isascii s); simpl; auto. split; discriminate.
Qed.

(** The root validator names the first entry that is not ASCII. *)
Lemma ascii_items_offence items :
  existsb non_ascii_entry items = true ->
  exists e, validate_all_ascii_items items = Err e
    /\ ((exists k, e = NonAsciiKey k /\ In k (Dict.keys items)
                   /\ PyStr.isascii k = false)
        \/ (exists k s, e = NonAsciiValue k s /\ In (k, VStr s) items
                        /\ PyStr.isascii s = false)).
Proof.
  induction items as [|[k v] items IH]; simpl; [discriminate|].
  unfold non_ascii_entry at 1. simpl.
  destruct (PyStr.isascii k) eqn:K; simpl.
  - assert (R : existsb non_ascii_entry items = true ->
                exists e, validate_all_ascii_items items = Err e
                  /\ ((exists k0, e = NonAsciiKey k0
                                  /\ (k = k0 \/ In k0 (Dict.keys items))
                                  /\ PyStr.isascii k0 = false)
                      \/ (exists k0 s, e = NonAsciiValue k0 s
                                       /\ ((k, v) = (k0, VStr s) \/ In (k0, VStr s) items)
                                       /\ PyStr.isascii s = false))).
    { intros A. destruct (IH A) as (e & He & Hn). exists e. split; [exact He|].
      destruct Hn as [(k' & -> & I & N)|(k' & s' & -> & I & N)];
        [left; exists k'; auto | right; exists k', s'; auto]. }
    destruct v as [| | |s]; simpl; auto.
    destruct (PyStr.isascii s) eqn:S; simpl; auto.
    intros _. eexists. split; [reflexivity|]. right. exists k, s. auto.
  - intros _. eexists. split; [reflexivity|]. left. exists k. auto.
Qed.

Lemma GlobalAttributes_Instance input lg inst :
  GlobalAttributes input = (lg, Instance inst) ->
  field_errors input = []
  /\ existsb non_ascii_entry (values (validate_fields input)) = false
  /\ exists d, Dict.get "datastream" (values (validate_fields input)) = Some d
     /\ ((truthy d = true /\ inst = values (validate_fields input)
          /\ lg = log (validate_fields input))
         \/ (truthy d = false
             /\ inst = Dict.set "datastream"
                        (VStr (get_datastream (values (validate_fields input))))
                        (values (validate_fields input))
             /\ lg = (log (validate_fields input) ++ [DatastreamDerived])%list)).
Proof.
  unfold Attributes.GlobalAttributes. rewrite errors_validate_fields.
  destruct (field_errors input); [|discriminate].
  unfold validate_all_ascii, bind.
  destruct (validate_all_ascii_items (values (validate_fields input)))
    as [[]|] eqn:A; [|discriminate].
  apply ascii_items_spec in A.
  unfold add_datastream_field.
  destruct (Dict.get "datastream" (values (validate_fields input))) as [d|];
    [|discriminate].
  intros H. split; [reflexivity|]. split; [exact A|].
  exists d. split; [reflexivity|].
  destruct (truthy d); simpl in H; rewrite ?app_nil_r in H; inversion H; subst;
    [left|right]; auto.
Qed.

Lemma datastream_field_resolves input :
  field_errors input = [] ->
  exists d, Dict.get "datastream" (values (validate_fields input)) = Some d.
Proof.
  intros E.
  destruct (no_errors_resolve input (nth 12 fields (required "" THttpUrl)) E)
    as [v Hv]; [simpl; tauto|].
  exists v. apply (values_field input _ v) in Hv; [exact Hv | simpl; tauto].
Qed.

(** When no field fails and the record is ASCII, the constructor returns
    an instance. *)
Lemma GlobalAttributes_succeeds input :
  field_errors input = [] ->
  existsb non_ascii_entry (values (validate_fields input)) = false ->
  exists lg inst, GlobalAttributes input = (lg, Instance inst).
Proof.
  intros E A. unfold Attributes.GlobalAttributes.
  rewrite errors_validate_fields, E.
  apply ascii_items_spec in A. unfold validate_all_ascii, bind. rewrite A.
  destruct (datastream_field_resolves input E) as [d Hd].
  unfold add_datastream_field. rewrite Hd.
  destruct (truthy d); simpl; eauto.
Qed.

(** The log of the constructor is the log of the fields, followed by the
    derivation of the datastream when it happens. *)
Lemma GlobalAttributes_log input :
  exists tl, fst (GlobalAttributes input) = (log (validate_fields input) ++ tl)%list
             /\ (tl = [] \/ tl = [DatastreamDerived]).
Proof.
  unfold Attributes.GlobalAttributes.
  destruct (errors (validate_fields input)).
  2:{ exists []. rewrite app_nil_r. auto. }
  destruct (validate_all_ascii (values (validate_fields input))) as [vals|e] eqn:A.
  2:{ exists []. rewrite app_nil_r. auto. }
  unfold add_datastream_field.
  destruct (Dict.get "datastream" vals) as [d|].
  - destruct (truthy d); simpl.
    + exists []. auto.
    + exists [DatastreamDerived]. auto.
  - exists []. auto.
Qed.

Lemma In_log_fields input e :
  In e (log (validate_fields input))
  <-> exists f, In f fields /\ In e (fst (resolve input f)).
Proof. rewrite log_validate_fields. apply in_flat_map. Qed.


(** *** ASCII strings *)

Lemma isascii_app s t :
  PyStr.isascii (s ++ t) = PyStr.isascii s && PyStr.isascii t.
Proof.
  unfold PyStr.isascii. induction s as [|c s IH]; simpl; auto.
  now rewrite IH, andb_assoc.
Qed.

Lemma existsb_false_In {A} (p : A -> bool) l x :
  existsb p l = false -> In x l -> p x = false.
Proof.
  intros H I. destruct (p x) eqn:E; auto.
  assert (existsb p l = true) by (apply existsb_exists; eauto). congruence.
Qed.

Lemma ascii_entry_value vals k s :
  existsb non_ascii_entry vals = false -> Dict.get k vals = Some (VStr s) ->
  PyStr.isascii s = true.
Proof.
  intros A G. apply DictFacts.get_In in G.
  pose proof (existsb_false_In _ _ _ A G) as E.
  unfold non_ascii_entry in E. simpl in E.
  apply orb_false_elim in E. destruct E as [_ E]. now apply negb_false_iff.
Qed.

Lemma ascii_entry_key vals k :
  existsb non_ascii_entry vals = false -> In k (Dict.keys vals) ->
  PyStr.isascii k = true.
Proof.
  intros A I. apply in_map_iff in I. destruct I as ([k' v] & <- & I).
  pose proof (existsb_false_In _ _ _ A I) as E.
  unfold non_ascii_entry in E. simpl in E |- *.
  apply orb_false_elim in E. destruct E as [E _]. now apply negb_false_iff.
Qed.

Lemma attr_str_ascii vals k s :
  existsb non_ascii_entry vals = false -> attr_str k vals = Some s ->
  PyStr.isascii s = true.
Proof.
  unfold attr_str. intros A.
  destruct (Dict.get k vals) as [[| | |t]|] eqn:G; try discriminate.
  intros E. inversion E. subst. eapply ascii_entry_value; eauto.
Qed.

(** A datastream derived from an ASCII record is ASCII. *)
Lemma get_datastream_ascii vals :
  existsb non_ascii_entry vals = false ->
  PyStr.isascii (get_datastream vals) = true.
Proof.
  intros A. unfold get_datastream, derive_datastream.
  assert (R : forall k, PyStr.isascii
                          (match attr_str k vals with Some s => s | None => "" end) = true).
  { intros k. destruct (attr_str k vals) eqn:E; auto. eapply attr_str_ascii; eauto. }
  assert (S : forall k, PyStr.isascii
                          (match attr_str k vals with Some s => "-" ++ s | None => "" end)
                        = true).
  { intros k. destruct (attr_str k vals) eqn:E; auto.
    rewrite isascii_app. erewrite (attr_str_ascii vals k s); eauto. }
  rewrite !isascii_app, !R, !S. reflexivity.
Qed.

Lemma existsb_set_false (p : string * value -> bool) k v vals :
  (forall k', String.eqb k k' = true -> p (k', v) = false) ->
  existsb p vals = false -> existsb p (Dict.set k v vals) = false.
Proof.
  intros P. induction vals as [|[k' v'] vals IH]; simpl.
  - intros _. rewrite P; auto. apply String.eqb_refl.
  - intros E. apply orb_false_elim in E. destruct E as [E1 E2].
    destruct (String.eqb k k') eqn:K; simpl.
    + rewrite P, E2; auto.
    + rewrite E1, IH; auto.
Qed.









(** C4, as the code has it: an instance is produced only if the record
    checked by the root validator and the instance itself have ASCII keys
    and ASCII string values, every key of the input is ASCII, and so is
    every string value of the input other than those of [code_url],
    [history] and [code_version]; and when no field fails but the record
    has a key or a string value that is not ASCII, construction fails with
    the error of the root validator, which names such a key or entry. *)
Theorem ascii_rule_on_record input :
  (forall lg inst, GlobalAttributes input = (lg, Instance inst) ->
     existsb non_ascii_entry inst = false
     /\ existsb non_ascii_entry (values (validate_fields input)) = false
     /\ (forall k, In k (Dict.keys input) -> PyStr.isascii k = true)
     /\ (forall k s, Dict.get k input = Some (VStr s) ->
           ~ In k ["code_url"; "history"; "code_version"] ->
           PyStr.isascii s = true))
  /\ (field_errors input = [] ->
      existsb non_ascii_entry (values (validate_fields input)) = true ->
      exists e, snd (GlobalAttributes input) = ValidationError [(ROOT_KEY, e)]
        /\ ((exists k, e = NonAsciiKey k
                       /\ In k (Dict.keys (values (validate_fields input)))
                       /\ PyStr.isascii k = false)
            \/ (exists k s, e = NonAsciiValue k s
                            /\ In (k, VStr s) (values (validate_fields input))
                            /\ PyStr.isascii s = false))).
Proof.
  split.
  - intros lg inst H. apply GlobalAttributes_Instance in H.
    destruct H as (E & A & d & Hd & Hcase).
    assert (Hv : forall k s, Dict.get k input = Some (VStr s) ->
                   ~ In k ["code_url"; "history"; "code_version"] ->
                   Dict.get k (values (validate_fields input)) = Some (VStr s)).
    { intros k s G N.
      destruct (in_dec string_dec k field_names) as [I|I].
      - unfold field_names in I. apply in_map_iff in I. destruct I as (f & <- & I).
        destruct (no_errors_resolve input f E I) as [v R].
        rewrite (values_field input f v I R). f_equal.
        revert R. unfold Attributes.resolve. rewrite G.
        unfold fields in I. simpl in I, N.
        repeat (destruct I as [<-|I];
                [first [ exfalso; apply N; simpl; tauto
                       | apply validate_plain_str;
                         [reflexivity | simpl; unfold str_, StrictStr; eauto 6] ]|]).
        contradiction.
      - now rewrite values_extra. }
    repeat split; auto.
    + destruct Hcase as [(_ & -> & _)|(_ & -> & _)]; auto.
      apply existsb_set_false; auto.
      intros k' K. apply String.eqb_eq in K. subst k'.
      unfold non_ascii_entry. simpl. now rewrite get_datastream_ascii.
    + intros k I.
      destruct (in_dec string_dec k field_names) as [F|F].
      * revert F. unfold field_names, fields. simpl.
        intros F. repeat (destruct F as [<-|F]; [reflexivity|]). contradiction.
      * apply (ascii_entry_key (values (validate_fields input))); auto.
        apply DictFacts.mem_In. unfold Dict.mem. rewrite values_extra by assumption.
        apply DictFacts.mem_In in I. exact I.
    + intros k s G N. eapply ascii_entry_value; eauto.
  - intros E A. destruct (ascii_items_offence _ A) as (e & He & Hn).
    exists e. split; [|exact Hn].
    unfold Attributes.GlobalAttributes.
    rewrite errors_validate_fields, E. unfold validate_all_ascii, bind.
    now rewrite He.
Qed.

(** C6: when no field fails and the record is ASCII, construction
    succeeds, and every key of the input that is no field of the model is
    in the instance with the value the input gives it (and only such keys
    are added). *)
Theorem extra_keys_pass_through input :
  field_errors input = [] ->
  existsb non_ascii_entry (values (validate_fields input)) = false ->
  exists lg inst, GlobalAttributes input = (lg, Instance inst)
    /\ forall k, ~ In k field_names -> Dict.get k inst = Dict.get k input.
Proof.
  intros E A. destruct (GlobalAttributes_succeeds input E A) as (lg & inst & H).
  exists lg, inst. split; auto. intros k N.
  apply GlobalAttributes_Instance in H.
  destruct H as (_ & _ & d & _ & [(_ & -> & _)|(_ & -> & _)]).
  - now apply values_extra.
  - rewrite DictFacts.get_set_ne; [now apply values_extra|].
    intros ->. apply N. unfold field_names. simpl. tauto.
Qed.


(** *** Further properties of the model *)

Lemma validate_type_str_len strict mn mx re v w :
  validate_type http_url (TStr strict mn mx re) v = Ok w ->
  exists s, w = VStr s
    /\ (forall n, mn = Some n -> n <= String.length s)
    /\ (forall m, mx = Some m -> String.length s <= m).
Proof.
  unfold validate_type, bind.
  destruct (if strict then strict_str_validator v else str_validator v) as [s|];
    [|discriminate].
  destruct (constr_length_validator mn mx s) as [t|] eqn:L; [|discriminate].
  pose proof (constr_length_validator_id _ _ _ _ L) as ->.
  destruct (constr_validate re s) as [t|] eqn:R; [|discriminate].
  apply constr_validate_id in R. subst t. intros E. inversion E. subst.
  exists s. split; [reflexivity|].
  unfold constr_length_validator, bind in L.
  split.
  - intros n ->. destruct (Nat.ltb_spec (String.length s) n); [discriminate | lia].
  - intros m ->.
    destruct mn as [n|]; [destruct (Nat.ltb (String.length s) n); [discriminate|]|];
      (destruct (Nat.ltb_spec m (String.length s)); [discriminate | lia]).
Qed.

Lemma resolve_required_len input f v strict mn mx re :
  snd (resolve input f) = Ok v ->
  type_ f = TStr strict mn mx re -> allow_none f = false -> default f = Required ->
  pre_validators f = false ->
  exists s, v = VStr s
    /\ (forall n, mn = Some n -> n <= String.length s)
    /\ (forall m, mx = Some m -> String.length s <= m).
Proof.
  intros R T N D P. revert R. unfold Attributes.resolve.
  destruct (Dict.get (name f) input) as [w|]; [|rewrite D; discriminate].
  unfold validate. rewrite P. simpl.
  destruct w; rewrite ?N, ?T; try discriminate; apply validate_type_str_len.
Qed.

Lemma instance_get input lg inst k :
  GlobalAttributes input = (lg, Instance inst) -> k <> "datastream" ->
  Dict.get k inst = Dict.get k (values (validate_fields input)).
Proof.
  intros H N. apply GlobalAttributes_Instance in H.
  destruct H as (_ & _ & d & _ & [(_ & -> & _)|(_ & -> & _)]); auto.
  now apply DictFacts.get_set_ne.
Qed.

(** X1: the constructor returns an instance exactly when no field fails
    and the record has no key or string value that is not ASCII; the lookup
    of [datastream] in [add_datastream_field] never raises. *)
Theorem construction_outcome input :
  ((exists lg inst, GlobalAttributes input = (lg, Instance inst))
   <-> field_errors input = []
       /\ existsb non_ascii_entry (values (validate_fields input)) = false)
  /\ forall lg k, GlobalAttributes input <> (lg, Uncaught k).
Proof.
  split; [split|].
  - intros (lg & inst & H). apply GlobalAttributes_Instance in H. tauto.
  - intros [E A]. now apply GlobalAttributes_succeeds.
  - intros lg k. unfold Attributes.GlobalAttributes. rewrite errors_validate_fields.
    destruct (field_errors input) eqn:E; [|discriminate].
    unfold validate_all_ascii, bind.
    destruct (validate_all_ascii_items _) as [[]|]; [|discriminate].
    destruct (datastream_field_resolves input E) as [d Hd].
    unfold add_datastream_field. rewrite Hd. destruct (truthy d); discriminate.
Qed.

(** X2: an instance has every field of the model among its keys. *)
Theorem instance_has_every_field input lg inst n :
  GlobalAttributes input = (lg, Instance inst) -> In n field_names ->
  exists v, Dict.get n inst = Some v.
Proof.
  intros H I. pose proof (GlobalAttributes_Instance _ _ _ H) as (E & _).
  destruct (string_dec n "datastream") as [->|N].
  - apply GlobalAttributes_Instance in H.
    destruct H as (_ & _ & d & Hd & [(_ & -> & _)|(_ & -> & _)]); eauto.
    rewrite DictFacts.get_set_eq. eauto.
  - rewrite (instance_get _ _ _ _ H N).
    unfold field_names in I. apply in_map_iff in I. destruct I as (f & <- & I).
    destruct (no_errors_resolve input f E I) as [v R]. exists v.
    now apply values_field.
Qed.

Lemma missing_step input f :
  default f = Required -> Dict.get (name f) input = None ->
  step_errors input f = [(name f, MissingError)].
Proof.
  intros D G. unfold Attributes.step_errors, Attributes.resolve. now rewrite G, D.
Qed.

(** X3: a required attribute that the input does not have makes
    construction fail, with a missing-field error at that attribute. *)
Theorem missing_required_field input n :
  In n ["title"; "description"; "location_id"; "dataset_name"; "data_level"] ->
  Dict.get n input = None ->
  exists lg errs, GlobalAttributes input = (lg, ValidationError errs)
                  /\ In (n, MissingError) errs.
Proof.
  intros I G.
  assert (F : exists f, In f fields /\ name f = n /\ default f = Required).
  { destruct I as [<-|[<-|[<-|[<-|[<-|[]]]]]];
      [exists (nth 0 fields (optional "" THttpUrl))
      |exists (nth 1 fields (optional "" THttpUrl))
      |exists (nth 7 fields (optional "" THttpUrl))
      |exists (nth 8 fields (optional "" THttpUrl))
      |exists (nth 11 fields (optional "" THttpUrl))];
      (split; [simpl; tauto | split; reflexivity]). }
  destruct F as (f & If & <- & D).
  assert (M : In (name f, MissingError) (field_errors input)).
  { unfold Attributes.field_errors. apply in_flat_map. exists f. split; auto.
    rewrite missing_step by assumption. now left. }
  unfold Attributes.GlobalAttributes. rewrite errors_validate_fields.
  destruct (field_errors input) as [|e es] eqn:E; [contradiction|]. eauto.
Qed.

(** X4: when the input has no key [code_version], the default factory is
    called, no warning is emitted for the attribute, and an instance stores
    what the factory returned. *)
Theorem code_version_key_absent input :
  Dict.get "code_version" input = None ->
  In CodeVersionFactory (fst (GlobalAttributes input))
  /\ (forall w, ~ In (Warned "code_version" w) (fst (GlobalAttributes input)))
  /\ forall lg inst, GlobalAttributes input = (lg, Instance inst) ->
       Dict.get "code_version" inst = Some (VStr get_code_version).
Proof.
  intros G.
  assert (I : In (nth 14 fields (optional "" THttpUrl)) fields) by (simpl; tauto).
  assert (R : resolve input (nth 14 fields (optional "" THttpUrl))
              = ([CodeVersionFactory], Ok (VStr get_code_version))).
  { unfold Attributes.resolve. simpl. now rewrite G. }
  destruct (GlobalAttributes_log input) as (tl & L & Htl). rewrite L.
  split; [|split].
  - apply in_or_app. left. apply In_log_fields. eexists. split; [exact I|].
    rewrite R. now left.
  - intros w H. apply in_app_or in H. destruct H as [H|H].
    + apply In_log_fields in H. destruct H as (f & _ & H).
      apply resolve_events in H. destruct H as [(H & _)|(w' & H & G' & _)];
        [discriminate|].
      inversion H. congruence.
    + destruct Htl as [-> | ->]; simpl in H; [tauto|]. destruct H as [H|[]].
      discriminate.
  - intros lg inst H. rewrite (instance_get _ _ _ _ H) by discriminate.
    apply (values_field input _ _ I). now rewrite R.
Qed.

(** X5: an instance always stores the empty string for [history]; a
    supplied value is warned about exactly when it is truthy, and nothing
    is warned when the key is absent. *)
Theorem history_is_reset input lg inst :
  GlobalAttributes input = (lg, Instance inst) ->
  Dict.get "history" inst = Some (VStr "")
  /\ (forall v, Dict.get "history" input = Some v ->
        (In (Warned "history" v) lg <-> truthy v = true))
  /\ (Dict.get "history" input = None -> forall w, ~ In (Warned "history" w) lg).
Proof.
  intros H.
  assert (I : In (nth 13 fields (optional "" THttpUrl)) fields) by (simpl; tauto).
  assert (Lg : forall e, In e lg ->
                 In e (log (validate_fields input)) \/ e = DatastreamDerived).
  { pose proof (GlobalAttributes_Instance _ _ _ H)
      as (_ & _ & d & _ & [(_ & _ & ->)|(_ & _ & ->)]); auto.
    intros e He. apply in_app_or in He. destruct He as [He|[He|[]]]; auto. }
  assert (Lg' : forall e, In e (log (validate_fields input)) -> In e lg).
  { pose proof (GlobalAttributes_Instance _ _ _ H)
      as (_ & _ & d & _ & [(_ & _ & ->)|(_ & _ & ->)]); auto.
    intros e He. apply in_or_app. now left. }
  assert (W : forall w, In (Warned "history" w) lg ->
                Dict.get "history" input = Some w /\ truthy w = true).
  { intros w Hw. destruct (Lg _ Hw) as [Hl|Hl]; [|discriminate].
    apply In_log_fields in Hl. destruct Hl as (f & _ & Hl).
    apply resolve_events in Hl. destruct Hl as [(Hl & _)|(w' & Hl & G' & T & _)];
      [discriminate|].
    inversion Hl; subst. rewrite <- H1 in G'. auto. }
  split; [|split].
  - rewrite (instance_get _ _ _ _ H) by discriminate.
    apply (values_field input _ _ I). unfold Attributes.resolve. simpl.
    now destruct (Dict.get "history" input).
  - intros v G. split.
    + intros Hw. now apply W in Hw.
    + intros T. apply Lg', In_log_fields. eexists. split; [exact I|].
      unfold Attributes.resolve. simpl. rewrite G. simpl.
      unfold warn_if_dynamic_properties_are_set. rewrite T. now left.
  - intros G w Hw. apply W in Hw. destruct Hw as [Hw _]. congruence.
Qed.

(** X6: the lengths of the required attributes of an instance: [title],
    [description] and [location_id] are not empty, [dataset_name] has at
    least 2 characters and [data_level] 2 or 3. *)
Theorem required_lengths input lg inst :
  GlobalAttributes input = (lg, Instance inst) ->
  exists title description location_id dataset_name data_level,
    Dict.get "title" inst = Some (VStr title)
    /\ Dict.get "description" inst = Some (VStr description)
    /\ Dict.get "location_id" inst = Some (VStr location_id)
    /\ Dict.get "dataset_name" inst = Some (VStr dataset_name)
    /\ Dict.get "data_level" inst = Some (VStr data_level)
    /\ 1 <= String.length title /\ 1 <= String.length description
    /\ 1 <= String.length location_id /\ 2 <= String.length dataset_name
    /\ 2 <= String.length data_level <= 3.
Proof.
  intros H. pose proof (GlobalAttributes_Instance _ _ _ H) as (E & _).
  assert (Q : forall f strict mn mx re,
                In f fields ->
                type_ f = TStr strict mn mx re -> allow_none f = false ->
                default f = Required -> pre_validators f = false ->
                name f <> "datastream" ->
                exists s, Dict.get (name f) inst = Some (VStr s)
                  /\ (forall n, mn = Some n -> n <= String.length s)
                  /\ (forall m, mx = Some m -> String.length s <= m)).
  { intros f strict mn mx re I T N D P Nd.
    destruct (no_errors_resolve input f E I) as [v R].
    destruct (resolve_required_len input f v _ _ _ _ R T N D P) as (s & -> & L).
    exists s. split; [|exact L].
    rewrite (instance_get _ _ _ _ H Nd). now apply values_field. }
  destruct (Q (nth 0 fields (optional "" THttpUrl)) false (Some 1) None None)
    as (s0 & G0 & L0 & _); try reflexivity; [simpl; tauto | discriminate |].
  destruct (Q (nth 1 fields (optional "" THttpUrl)) false (Some 1) None None)
    as (s1 & G1 & L1 & _); try reflexivity; [simpl; tauto | discriminate |].
  destruct (Q (nth 7 fields (optional "" THttpUrl)) false (Some 1) None
              (Some (Plus1 alnum_)))
    as (s7 & G7 & L7 & _); try reflexivity; [simpl; tauto | discriminate |].
  destruct (Q (nth 8 fields (optional "" THttpUrl)) false (Some 2) None
              (Some (Plus1 lower_alnum_)))
    as (s8 & G8 & L8 & _); try reflexivity; [simpl; tauto | discriminate |].
  destruct (Q (nth 11 fields (optional "" THttpUrl)) false (Some 2) (Some 3)
              (Some (Plus1 lower_alnum)))
    as (s11 & G11 & L11 & M11); try reflexivity; [simpl; tauto | discriminate |].
  exists s0, s1, s7, s8, s11.
  repeat split; auto.
Qed.

(** X7: an optional attribute that the input does not have is [None] in
    the instance. *)
Theorem optional_defaults_to_None input lg inst n :
  GlobalAttributes input = (lg, Instance inst) ->
  In n ["code_url"; "conventions"; "doi"; "institution"; "references";
        "qualifier"; "temporal"] ->
  Dict.get n input = None ->
  Dict.get n inst = Some VNone.
Proof.
  intros H I G.
  assert (N : n <> "datastream") by (intros ->; simpl in I; intuition discriminate).
  rewrite (instance_get _ _ _ _ H N).
  assert (F : exists f, In f fields /\ name f = n /\ default f = Default VNone).
  { destruct I as [<-|[<-|[<-|[<-|[<-|[<-|[<-|[]]]]]]]];
      [exists (nth 2 fields (optional "" THttpUrl))
      |exists (nth 3 fields (optional "" THttpUrl))
      |exists (nth 4 fields (optional "" THttpUrl))
      |exists (nth 5 fields (optional "" THttpUrl))
      |exists (nth 6 fields (optional "" THttpUrl))
      |exists (nth 9 fields (optional "" THttpUrl))
      |exists (nth 10 fields (optional "" THttpUrl))];
      (split; [simpl; tauto | split; reflexivity]). }
  destruct F as (f & If & <- & D).
  apply values_field; auto. unfold Attributes.resolve. now rewrite G, D.
Qed.

Lemma datastream_resolves_str input v :
  snd (resolve input (nth 12 fields (optional "" THttpUrl))) = Ok v ->
  exists s, v = VStr s.
Proof.
  unfold Attributes.resolve. simpl.
  destruct (Dict.get "datastream" input) as [w|]; [|intros E; inversion E; eauto].
  unfold validate. simpl. destruct w; try discriminate.
  simpl. intros E. inversion E. eauto.
Qed.

(** X18: the datastream of an instance is a string that is not empty: the
    one supplied, or the derived one, which has the two dots of its
    format. *)
Theorem datastream_never_empty input lg inst :
  GlobalAttributes input = (lg, Instance inst) ->
  exists s, Dict.get "datastream" inst = Some (VStr s) /\ s <> "".
Proof.
  intros H. apply GlobalAttributes_Instance in H.
  destruct H as (E & _ & d & Hd & Hcase).
  assert (I : In (nth 12 fields (optional "" THttpUrl)) fields) by (simpl; tauto).
  destruct Hcase as [(T & -> & _)|(_ & -> & _)].
  - destruct (no_errors_resolve input _ E I) as [v R].
    destruct (datastream_resolves_str input v R) as [s ->].
    pose proof (values_field input _ _ I R) as V.
    change (name (nth 12 fields (optional "" THttpUrl))) with "datastream" in V.
    rewrite V in Hd. inversion Hd; subst d.
    exists s. split; auto. intros ->. discriminate T.
  - rewrite DictFacts.get_set_eq. eexists. split; [reflexivity|].
    unfold get_datastream, derive_datastream.
    destruct (match attr_str "location_id" _ with Some s => s | None => "" end);
      discriminate.
Qed.

End Facts.

(** X8: [validate_all_ascii] stops at the first entry that is not ASCII,
    and tests the key of an entry before its value. *)
Theorem validate_all_ascii_first_offence pre k v post :
  existsb non_ascii_entry pre = false ->
  non_ascii_entry (k, v) = true ->
  validate_all_ascii (pre ++ (k, v) :: post)%list
  = Err (if PyStr.isascii k then
           match v with
           | VStr s => NonAsciiValue k s
           | _ => NonAsciiKey k
           end
         else NonAsciiKey k).
Proof.
  intros P N. unfold validate_all_ascii.
  assert (E : validate_all_ascii_items (pre ++ (k, v) :: post)%list
              = Err (if PyStr.isascii k then
                       match v with
                       | VStr s => NonAsciiValue k s
                       | _ => NonAsciiKey k
                       end
                     else NonAsciiKey k)).
  { induction pre as [|[k' v'] pre IH]; simpl.
    - unfold non_ascii_entry in N. simpl in N.
      destruct (PyStr.isascii k); simpl in *; auto.
      destruct v as [| | |s]; try discriminate.
      now rewrite N.
    - simpl in P. apply orb_false_elim in P. destruct P as [P1 P2].
      unfold non_ascii_entry in P1. simpl in P1.
      apply orb_false_elim in P1. destruct P1 as [K V]. rewrite K.
      destruct v' as [| | |s']; auto. now rewrite V; auto. }
  now rewrite E.
Qed.

(** *** The claims on concrete inputs *)

Import Examples.

Lemma custom_datastream_outcome :
  GlobalAttributes code_version http_url with_custom_datastream
  = ([CodeVersionFactory], Instance (instance_of_base "custom.id.a1" "" "1.2.3")).
Proof. vm_compute. reflexivity. Qed.


(** The example of the datastream description: no qualifier and no
    temporal attribute; and one with both. *)
Example datastream_WHOI_buoy_a1 :
  snd (GlobalAttributes code_version http_url base)
  = Instance (instance_of_base "WHOI.buoy.a1" "" "1.2.3").
Proof. vm_compute. reflexivity. Qed.

Example datastream_with_suffixes :
  exists inst,
    snd (GlobalAttributes code_version http_url with_qualifier_temporal) = Instance inst
    /\ Dict.get "datastream" inst = Some (VStr "WHOI.buoy-east-10m.a1").
Proof. eexists. vm_compute. split; reflexivity. Qed.




(** C4 as stated fails: a [history] that is not ASCII does not make
    construction fail. *)
Lemma non_ascii_history_accepted :
  Dict.get "history" with_non_ascii_history = Some (VStr e_acute)
  /\ PyStr.isascii e_acute = false
  /\ GlobalAttributes code_version http_url with_non_ascii_history
     = ([Warned "history" (VStr e_acute); CodeVersionFactory; DatastreamDerived],
        Instance (instance_of_base "WHOI.buoy.a1" "" "1.2.3")).
Proof. vm_compute. auto. Qed.

Lemma non_ascii_extra_field_errors :
  field_errors code_version http_url with_non_ascii_extra = [].
Proof. vm_compute. reflexivity. Qed.

Lemma ascii_rule_on_record_witness :
  exists e,
    snd (GlobalAttributes code_version http_url with_non_ascii_extra)
    = ValidationError [(ROOT_KEY, e)]
    /\ ((exists k, e = NonAsciiKey k
           /\ In k (Dict.keys (values (validate_fields code_version http_url
                                         with_non_ascii_extra)))
           /\ PyStr.isascii k = false)
        \/ (exists k s, e = NonAsciiValue k s
              /\ In (k, VStr s) (values (validate_fields code_version http_url
                                           with_non_ascii_extra))
              /\ PyStr.isascii s = false)).
Proof.
  apply (proj2 (ascii_rule_on_record code_version http_url with_non_ascii_extra)
           non_ascii_extra_field_errors).
  vm_compute. reflexivity.
Defined.

(** C5 fails on the code: a supplied [code_version] is warned about and
    replaced by the empty string, not by what the default factory returns
    ("1.2.3" in the examples, which is what is stored when the key is
    absent). *)
Lemma supplied_code_version_stored_empty :
  GlobalAttributes code_version http_url with_code_version
  = ([Warned "code_version" (VStr "0.9.0"); DatastreamDerived],
     Instance (instance_of_base "WHOI.buoy.a1" "" ""))
  /\ GlobalAttributes code_version http_url base
     = ([CodeVersionFactory; DatastreamDerived],
        Instance (instance_of_base "WHOI.buoy.a1" "" "1.2.3")).
Proof. vm_compute. auto. Qed.

Lemma with_extra_field_errors :
  field_errors code_version http_url with_extra = [].
Proof. vm_compute. reflexivity. Qed.

Lemma extra_keys_pass_through_witness :
  exists lg inst,
    GlobalAttributes code_version http_url with_extra = (lg, Instance inst)
    /\ forall k, ~ In k field_names -> Dict.get k inst = Dict.get k with_extra.
Proof.
  apply (extra_keys_pass_through code_version http_url with_extra
           with_extra_field_errors).
  vm_compute. reflexivity.
Defined.


(** *** The further properties on concrete inputs *)

Lemma construction_outcome_witness :
  exists lg inst,
    GlobalAttributes code_version http_url with_extra = (lg, Instance inst).
Proof.
  apply (proj2 (proj1 (construction_outcome code_version http_url with_extra))).
  split; vm_compute; reflexivity.
Defined.

Lemma instance_has_every_field_witness :
  exists v, Dict.get "history" (instance_of_base "custom.id.a1" "" "1.2.3") = Some v.
Proof.
  apply (instance_has_every_field code_version http_url _ _ _ "history"
           custom_datastream_outcome).
  vm_compute. tauto.
Defined.

Lemma missing_required_field_witness :
  exists lg errs,
    GlobalAttributes code_version http_url [("title", VStr "Buoy data")]
    = (lg, ValidationError errs)
    /\ In ("description", MissingError) errs.
Proof.
  apply (missing_required_field code_version http_url
           [("title", VStr "Buoy data")] "description");
    [simpl; tauto | reflexivity].
Defined.

Lemma code_version_key_absent_witness :
  In CodeVersionFactory (fst (GlobalAttributes code_version http_url base)).
Proof.
  apply (proj1 (code_version_key_absent code_version http_url base eq_refl)).
Defined.

Lemma history_is_reset_witness :
  Dict.get "history" (instance_of_base "custom.id.a1" "" "1.2.3") = Some (VStr "").
Proof.
  apply (proj1 (history_is_reset code_version http_url _ _ _ custom_datastream_outcome)).
Defined.

Lemma required_lengths_witness :
  exists title description location_id dataset_name data_level,
    Dict.get "title" (instance_of_base "custom.id.a1" "" "1.2.3") = Some (VStr title)
    /\ Dict.get "description" (instance_of_base "custom.id.a1" "" "1.2.3")
       = Some (VStr description)
    /\ Dict.get "location_id" (instance_of_base "custom.id.a1" "" "1.2.3")
       = Some (VStr location_id)
    /\ Dict.get "dataset_name" (instance_of_base "custom.id.a1" "" "1.2.3")
       = Some (VStr dataset_name)
    /\ Dict.get "data_level" (instance_of_base "custom.id.a1" "" "1.2.3")
       = Some (VStr data_level)
    /\ 1 <= String.length title /\ 1 <= String.length description
    /\ 1 <= String.length location_id /\ 2 <= String.length dataset_name
    /\ 2 <= String.length data_level <= 3.
Proof.
  apply (required_lengths code_version http_url _ _ _ custom_datastream_outcome).
Defined.

Lemma optional_defaults_to_None_witness :
  Dict.get "doi" (instance_of_base "custom.id.a1" "" "1.2.3") = Some VNone.
Proof.
  apply (optional_defaults_to_None code_version http_url _ _ _ "doi"
           custom_datastream_outcome); [simpl; tauto | reflexivity].
Defined.

Lemma datastream_never_empty_witness :
  exists s, Dict.get "datastream" (instance_of_base "custom.id.a1" "" "1.2.3")
            = Some (VStr s) /\ s <> "".
Proof.
  apply (datastream_never_empty code_version http_url _ _ _ custom_datastream_outcome).
Defined.

Lemma validate_all_ascii_first_offence_witness :
  validate_all_ascii ([("title", VStr "Buoy data")]
                      ++ ("comment", VStr e_acute) :: [("note", VStr e_acute)])%list
  = Err (NonAsciiValue "comment" e_acute).
Proof.
  apply (validate_all_ascii_first_offence [("title", VStr "Buoy data")]
           "comment" (VStr e_acute) [("note", VStr e_acute)]); reflexivity.
Defined.

End AttributesFacts.

(** * Facts about the customizer *)

Module PipelineFacts.
Import Pipeline.

(** *** The names of the pairs *)

Lemma length_append (s t : string) :
  String.length (s ++ t) = String.length s + String.length t.
Proof. induction s as [|c s IH]; simpl; auto. Qed.

Lemma append_inj_r (s t u : string) : s ++ u = t ++ u -> s = t.
Proof.
  revert t. induction s as [|c s IH]; intros [|d t] H; simpl in H; auto.
  - apply (f_equal String.length) in H. simpl in H. rewrite length_append in H. lia.
  - apply (f_equal String.length) in H. simpl in H. rewrite length_append in H. lia.
  - inversion H. f_equal. auto.
Qed.

Lemma of_nat_inj n m : PyStr.of_nat n = PyStr.of_nat m -> n = m.
Proof.
  unfold PyStr.of_nat. intros H.
  apply (f_equal NilEmpty.uint_of_string) in H. rewrite !NilEmpty.usu in H.
  inversion H as [H']. apply (f_equal Nat.of_uint) in H'.
  now rewrite !Unsigned.of_to in H'.
Qed.

Lemma vel_name_inj i j : vel_name i = vel_name j -> i = j.
Proof.
  unfold vel_name. intros H. simpl in H. inversion H as [H'].
  apply append_inj_r, of_nat_inj in H'. lia.
Qed.

Lemma dir_name_inj i j : dir_name i = dir_name j -> i = j.
Proof.
  unfold dir_name. intros H. simpl in H. inversion H as [H'].
  apply append_inj_r, of_nat_inj in H'. lia.
Qed.

Lemma has_vel_and_dir_get dataset i :
  has_vel_and_dir dataset i = true ->
  (exists v, Dict.get (vel_name i) (variables dataset) = Some v)
  /\ (exists d, Dict.get (dir_name i) (variables dataset) = Some d).
Proof.
  unfold has_vel_and_dir, Dict.mem. intros H. apply andb_prop in H.
  destruct (Dict.get (vel_name i) (variables dataset)),
    (Dict.get (dir_name i) (variables dataset)); destruct H; try discriminate; eauto.
Qed.

(** The pairs have different names, so a dataset has no more contiguous
    pairs than variables. *)
Lemma pairs_bounded dataset k :
  (forall i, i < k -> has_vel_and_dir dataset i = true) ->
  k <= List.length (variables dataset).
Proof.
  intros H.
  assert (N : NoDup (map vel_name (seq 0 k))).
  { apply NoDup_map_NoDup_ForallPairs; [|apply seq_NoDup].
    intros i j _ _. apply vel_name_inj. }
  assert (I : incl (map vel_name (seq 0 k)) (Dict.keys (variables dataset))).
  { intros n Hn. apply in_map_iff in Hn. destruct Hn as (i & <- & Hi).
    apply in_seq in Hi. apply DictFacts.mem_In.
    specialize (H i ltac:(lia)). unfold has_vel_and_dir in H.
    now apply andb_prop in H. }
  pose proof (NoDup_incl_length N I) as L.
  unfold Dict.keys in L. now rewrite !length_map, length_seq in L.
Qed.

(** *** The loop *)

Lemma collect_pairs dataset k : forall bound i acc,
  (forall j, j < k -> has_vel_and_dir dataset (i + j) = true) ->
  has_vel_and_dir dataset (i + k) = false ->
  k < bound ->
  collect bound dataset i acc
  = Ok {| depth := (depth acc ++ depths i k)%list;
          vel_data := (vel_data acc
                       ++ map (fun j => var_data dataset (vel_name j)) (seq i k))%list;
          dir_data := (dir_data acc
                       ++ map (fun j => var_data dataset (dir_name j)) (seq i k))%list |}.
Proof.
  unfold depths.
  induction k as [|k IH]; intros bound i acc T F B.
  - destruct bound as [|bound]; [lia|]. simpl.
    rewrite Nat.add_0_r in F. rewrite F, !app_nil_r. now destruct acc.
  - destruct bound as [|bound]; [lia|]. simpl collect.
    pose proof (T 0 ltac:(lia)) as T0. rewrite Nat.add_0_r in T0. rewrite T0.
    destruct (has_vel_and_dir_get _ _ T0) as [[v Hv] [d Hd]].
    unfold getitem_data. rewrite Hv, Hd. simpl bind.
    rewrite IH.
    + simpl depth; simpl vel_data; simpl dir_data.
      rewrite <- !app_assoc. simpl app. rewrite Nat.add_1_r.
      unfold var_data. rewrite Hv, Hd. reflexivity.
    + intros j Hj. replace (i + 1 + j) with (i + S j) by lia. apply T. lia.
    + replace (i + 1 + k) with (i + S k) by lia. exact F.
    + lia.
Qed.


(** *** Arrays *)











(** *** Assignment of a variable *)










(** *** The currents rule *)



Lemma collect_all dataset k :
  (forall i, i < k -> has_vel_and_dir dataset i = true) ->
  has_vel_and_dir dataset k = false ->
  collect (S (List.length (variables dataset))) dataset 0
    {| depth := []; vel_data := []; dir_data := [] |}
  = Ok {| depth := depths 0 k; vel_data := vel_columns dataset k;
          dir_data := dir_columns dataset k |}.
Proof.
  intros T F. rewrite (collect_pairs dataset k); auto.
  pose proof (pairs_bounded dataset k T). lia.
Qed.








(** *** The renaming rules *)

Lemma _rename_vars_Err name_dict old items : forall vars coords e,
  _rename_vars name_dict old items vars coords = Err e -> exists n, e = NameConflict n.
Proof.
  induction items as [|[k v] items IH]; intros vars coords e; simpl; [discriminate|].
  destruct (Dict.mem _ vars); [intros H; inversion H; eauto | apply IH].
Qed.

Lemma rename_vars_Err dataset name_dict e :
  rename_vars dataset name_dict = Err e ->
  (exists k, e = CannotRename k /\ In k (Dict.keys name_dict)
             /\ Dict.mem k (variables dataset) = false)
  \/ (exists n, e = NameConflict n).
Proof.
  unfold rename_vars.
  destruct (find _ (Dict.keys name_dict)) as [k|] eqn:Fd.
  - intros H. inversion H. left. exists k. apply find_some in Fd.
    destruct Fd as [I N]. apply negb_true_iff in N. auto.
  - destruct (_rename_vars _ _ _ _ _) as [r|e'] eqn:R; [discriminate|].
    simpl. intros H. inversion H. subst. right.
    eapply _rename_vars_Err; eauto.
Qed.

Lemma rename_vars_missing dataset name_dict k :
  In k (Dict.keys name_dict) -> Dict.mem k (variables dataset) = false ->
  exists k', rename_vars dataset name_dict = Err (CannotRename k')
             /\ In k' (Dict.keys name_dict)
             /\ Dict.mem k' (variables dataset) = false.
Proof.
  intros I M. unfold rename_vars.
  destruct (find _ (Dict.keys name_dict)) as [k'|] eqn:Fd.
  - exists k'. apply find_some in Fd. destruct Fd as [I' N].
    apply negb_true_iff in N. auto.
  - pose proof (find_none _ _ Fd k I) as N. simpl in N. rewrite M in N. discriminate.
Qed.

(** An exception in one round ends the loop over the mapping. *)
Lemma customize_items_raises time_input_name filename dataset post e : forall pre mapping,
  (forall f d, In (f, d) pre -> exists r, customize time_input_name f d = Ok r) ->
  customize time_input_name filename dataset = Err e ->
  customize_items time_input_name (pre ++ (filename, dataset) :: post)%list mapping = Err e.
Proof.
  induction pre as [|[f d] pre IH]; intros mapping P E; simpl.
  - now rewrite E.
  - destruct (P f d (or_introl eq_refl)) as [r ->]. simpl.
    apply IH; auto. intros f' d' I. apply P. now right.
Qed.

(** C8: when the rounds before it pass, a dataset whose key contains
    surfacetemp and which lacks the source variable makes
    [customize_raw_datasets] raise the error of [rename_vars] for the
    missing variable; so does a dataset whose key contains gill and which
    lacks one of the two source variables (unless the surfacetemp rule
    applies as well and fails on a name conflict). *)
Theorem missing_source_variable_raises time_input_name pre filename dataset post :
  (forall f d, In (f, d) pre -> exists r, customize time_input_name f d = Ok r) ->
  (PyStr.contains "surfacetemp" filename = true ->
   Dict.mem "Surface Temperature (C)" (variables dataset) = false ->
   customize_raw_datasets time_input_name (pre ++ (filename, dataset) :: post)%list
   = Err (CannotRename "Surface Temperature (C)"))
  /\ (PyStr.contains "gill" filename = true ->
      Dict.mem "Horizontal Speed (m/s)" (variables dataset) = false
      \/ Dict.mem "Horizontal Direction (deg)" (variables dataset) = false ->
      (forall n, rename_vars dataset surfacetemp_mapping <> Err (NameConflict n)) ->
      exists name,
        Dict.mem name (variables dataset) = false
        /\ customize_raw_datasets time_input_name (pre ++ (filename, dataset) :: post)%list
           = Err (CannotRename name)).
Proof.
  intros P. split.
  - intros S M. unfold customize_raw_datasets.
    apply customize_items_raises; auto.
    unfold customize. rewrite S. unfold rename_vars. simpl find. now rewrite M.
  - intros G M NC.
    assert (E : exists name, Dict.mem name (variables dataset) = false
                  /\ customize time_input_name filename dataset = Err (CannotRename name)).
    { unfold customize. rewrite G.
      destruct (rename_vars_missing dataset name_mapping
                  (if Dict.mem "Horizontal Speed (m/s)" (variables dataset)
                   then "Horizontal Direction (deg)" else "Horizontal Speed (m/s)"))
        as (k' & R & _ & Mk').
      { destruct (Dict.mem "Horizontal Speed (m/s)" (variables dataset)); simpl; auto. }
      { destruct (Dict.mem "Horizontal Speed (m/s)" (variables dataset)) eqn:H1; auto.
        destruct M; [discriminate | assumption]. }
      destruct (PyStr.contains "surfacetemp" filename).
      - destruct (rename_vars dataset surfacetemp_mapping) as [r|e] eqn:R1.
        + cbn [bind]. rewrite R. simpl. eauto.
        + apply rename_vars_Err in R1.
          destruct R1 as [(k & -> & _ & Mk)|(n & ->)]; [simpl; eauto|].
          exfalso. eapply NC. reflexivity.
      - cbn [bind]. rewrite R. simpl. eauto. }
    destruct E as (name & Mn & E). exists name. split; auto.
    unfold customize_raw_datasets. now apply customize_items_raises.
Qed.

(** *** Further properties of the hook *)


(** X10: the result of a round is the result of the last rule that
    applies, run on the dataset as it was read: what the rules before it
    stored in the mapping is overwritten.  A key that matches no rule keeps
    its dataset. *)
Theorem last_rule_wins time_input_name filename dataset r :
  customize time_input_name filename dataset = Ok r ->
  if PyStr.contains "currents" filename then currents time_input_name dataset = Ok r
  else if PyStr.contains "gill" filename then rename_vars dataset name_mapping = Ok r
  else if PyStr.contains "surfacetemp" filename
       then rename_vars dataset surfacetemp_mapping = Ok r
  else r = dataset.
Proof.
  unfold customize.
  destruct (PyStr.contains "surfacetemp" filename);
    [destruct (rename_vars dataset surfacetemp_mapping) as [r1|]|];
    (destruct (PyStr.contains "gill" filename);
     [destruct (rename_vars dataset name_mapping) as [r2|]|]);
    (destruct (PyStr.contains "currents" filename);
     [destruct (currents time_input_name dataset) as [r3|]|]);
    cbn [bind]; intros H; inversion H; reflexivity.
Qed.

Lemma set_same {V} (k : string) (v : V) : forall d,
  NoDup (Dict.keys d) -> In (k, v) d -> Dict.set k v d = d.
Proof.
  induction d as [|[k' v'] d IH]; intros N I; [contradiction|].
  simpl in N. inversion N as [|? ? Nk Nd]; subst. simpl.
  destruct (String.eqb_spec k k') as [->|Ne].
  - destruct I as [I|I]; [now inversion I|].
    exfalso. apply Nk. unfold Dict.keys. apply in_map_iff. exists (k', v). auto.
  - f_equal. apply IH; auto. destruct I as [I|I]; [inversion I; congruence | auto].
Qed.

Lemma customize_items_no_rule time_input_name : forall items mapping,
  NoDup (Dict.keys mapping) ->
  (forall f d, In (f, d) items -> In (f, d) mapping /\ no_rule f) ->
  customize_items time_input_name items mapping = Ok mapping.
Proof.
  induction items as [|[f d] items IH]; intros mapping N H; simpl; auto.
  destruct (H f d (or_introl eq_refl)) as (I & S & G & C).
  unfold customize. rewrite S, G, C. simpl.
  rewrite set_same by assumption. apply IH; auto.
  intros f' d' I'. apply H. now right.
Qed.

(** X11: a mapping none of whose keys contains surfacetemp, gill or
    currents is returned as it is. *)
Theorem no_rule_mapping_unchanged time_input_name mapping :
  NoDup (Dict.keys mapping) ->
  (forall f, In f (Dict.keys mapping) -> no_rule f) ->
  customize_raw_datasets time_input_name mapping = Ok mapping.
Proof.
  intros N H. unfold customize_raw_datasets. apply customize_items_no_rule; auto.
  intros f d I. split; auto. apply H. unfold Dict.keys. apply in_map_iff.
  exists (f, d). auto.
Qed.

Lemma customize_items_keys time_input_name : forall items mapping mapping',
  (forall f, In f (Dict.keys items) -> In f (Dict.keys mapping)) ->
  customize_items time_input_name items mapping = Ok mapping' ->
  Dict.keys mapping' = Dict.keys mapping.
Proof.
  induction items as [|[f d] items IH]; intros mapping mapping' K H; simpl in H.
  - now inversion H.
  - destruct (customize time_input_name f d) as [r|]; [|discriminate]. simpl in H.
    assert (E : Dict.keys (Dict.set f r mapping) = Dict.keys mapping).
    { rewrite DictFacts.keys_set.
      replace (Dict.mem f mapping) with true; auto.
      symmetry. apply DictFacts.mem_In, K. now left. }
    rewrite <- E. apply (IH _ _ ltac:(intros f' I'; rewrite E; apply K; now right) H).
Qed.

(** X12: when the hook returns, the mapping it returns has the keys of
    the mapping it was given, in the same order. *)
Theorem customize_raw_datasets_keys time_input_name mapping mapping' :
  customize_raw_datasets time_input_name mapping = Ok mapping' ->
  Dict.keys mapping' = Dict.keys mapping.
Proof. apply customize_items_keys. auto. Qed.

Lemma customize_items_entries time_input_name : forall items mapping mapping',
  NoDup (Dict.keys items) ->
  customize_items time_input_name items mapping = Ok mapping' ->
  forall f,
    (forall d, In (f, d) items ->
       exists r, customize time_input_name f d = Ok r /\ Dict.get f mapping' = Some r)
    /\ (~ In f (Dict.keys items) -> Dict.get f mapping' = Dict.get f mapping).
Proof.
  induction items as [|[f0 d0] items IH]; intros mapping mapping' N H f; simpl in H.
  - inversion H. split; [intros d []|auto].
  - simpl in N. inversion N as [|? ? N0 N']; subst.
    destruct (customize time_input_name f0 d0) as [r0|] eqn:C0; [|discriminate].
    simpl in H. destruct (IH _ _ N' H f) as [I1 I2]. split.
    + intros d [E|I].
      * inversion E; subst. exists r0. split; auto.
        destruct (IH _ _ N' H f) as [_ I3]. rewrite I3 by assumption.
        apply DictFacts.get_set_eq.
      * now apply I1.
    + intros Nf. simpl in Nf. rewrite I2 by tauto.
      apply DictFacts.get_set_ne. intros ->. tauto.
Qed.

(** X13: when the hook returns, every file has in the returned mapping
    the result of its own round on the dataset it had on entry: the files
    are customized independently. *)
Theorem customize_raw_datasets_entries time_input_name mapping mapping' f d :
  NoDup (Dict.keys mapping) ->
  customize_raw_datasets time_input_name mapping = Ok mapping' ->
  In (f, d) mapping ->
  exists r, customize time_input_name f d = Ok r /\ Dict.get f mapping' = Some r.
Proof.
  intros N H I.
  now apply (proj1 (customize_items_entries time_input_name _ _ _ N H f)).
Qed.

Lemma set_fresh {V} (k : string) (v : V) : forall d,
  Dict.mem k d = false -> Dict.set k v d = (d ++ [(k, v)])%list.
Proof.
  unfold Dict.mem. induction d as [|[k' v'] d IH]; simpl; auto.
  destruct (String.eqb k k'); [discriminate|]. intros H. now rewrite IH.
Qed.

Lemma get_NoDup_In {V} (k : string) (v : V) : forall d,
  NoDup (Dict.keys d) -> In (k, v) d -> Dict.get k d = Some v.
Proof.
  induction d as [|[k' v'] d IH]; intros N I; [contradiction|].
  simpl in N. inversion N as [|? ? Nk Nd]; subst. simpl.
  destruct (String.eqb_spec k k') as [->|Ne].
  - destruct I as [I|I]; [now inversion I|].
    exfalso. apply Nk. unfold Dict.keys. apply in_map_iff. exists (k', v). auto.
  - apply IH; auto. destruct I as [I|I]; [inversion I; congruence | auto].
Qed.

Lemma _rename_vars_Ok name_dict old : forall items vars coords vars' coords',
  NoDup (Dict.keys vars) ->
  _rename_vars name_dict old items vars coords = Ok (vars', coords') ->
  vars' = (vars ++ map (fun kv => (renamed name_dict (fst kv), snd kv)) items)%list
  /\ NoDup (Dict.keys vars').
Proof.
  induction items as [|[k v] items IH]; intros vars coords vars' coords' N H; simpl in H.
  - inversion H; subst. now rewrite app_nil_r.
  - fold (renamed name_dict k) in H.
    destruct (Dict.mem (renamed name_dict k) vars) eqn:M; [discriminate|].
    apply IH in H.
    + destruct H as [-> N']. split; auto.
      rewrite set_fresh by assumption. now rewrite <- app_assoc.
    + rewrite set_fresh by assumption. unfold Dict.keys. rewrite map_app. simpl.
      apply NoDup_app; auto.
      * constructor; [tauto | constructor].
      * intros x Hx [<-|[]]. apply DictFacts.mem_In in Hx. congruence.
Qed.

(** X14: when [rename_vars] returns, the variables of the result are those
    of the dataset in their order, each under its new name, and a variable
    is found under its new name with the dimensions and data it had. *)
Theorem rename_vars_lookup dataset name_dict r :
  rename_vars dataset name_dict = Ok r ->
  Dict.keys (variables r) = map (renamed name_dict) (Dict.keys (variables dataset))
  /\ forall k v, In (k, v) (variables dataset) ->
       Dict.get (renamed name_dict k) (variables r) = Some v.
Proof.
  unfold rename_vars. destruct (find _ _); [discriminate|].
  destruct (_rename_vars _ _ _ _ _) as [[vars' coords']|] eqn:R; [|discriminate].
  simpl. intros H. inversion H; subst. cbn [variables].
  apply _rename_vars_Ok in R; [|constructor]. destruct R as [-> N]. simpl in *.
  split.
  - unfold Dict.keys. now rewrite !map_map.
  - intros k v I. apply get_NoDup_In; auto.
    apply in_map_iff. exists (k, v). auto.
Qed.

Lemma first_gap (p : nat -> bool) : forall n,
  (forall i, i < n -> p i = true)
  \/ exists k, k < n /\ (forall i, i < k -> p i = true) /\ p k = false.
Proof.
  induction n as [|n [A|(k & L & A & F)]].
  - left. intros i H. lia.
  - destruct (p n) eqn:E.
    + left. intros i H. destruct (Nat.eq_dec i n) as [->|]; auto. apply A. lia.
    + right. exists n. auto.
  - right. exists k. auto.
Qed.

(** X15: the loop of the currents rule ends: it stops at the first index
    whose pair is incomplete, which is at most the number of variables,
    and has then collected the depths and the arrays of the pairs before
    it, in their order. *)
Theorem scan_stops_at_first_gap dataset :
  exists k,
    k <= List.length (variables dataset)
    /\ (forall i, i < k -> has_vel_and_dir dataset i = true)
    /\ has_vel_and_dir dataset k = false
    /\ collect (S (List.length (variables dataset))) dataset 0
         {| depth := []; vel_data := []; dir_data := [] |}
       = Ok {| depth := depths 0 k; vel_data := vel_columns dataset k;
               dir_data := dir_columns dataset k |}.
Proof.
  destruct (first_gap (has_vel_and_dir dataset) (S (List.length (variables dataset))))
    as [A|(k & L & A & F)].
  - pose proof (pairs_bounded dataset _ A). lia.
  - exists k. repeat split; auto; [lia|]. now apply collect_all.
Qed.



(** *** The claims on concrete inputs *)

Import Examples.



(** The example of the specification: two pairs give the depths 4 and 8
    and two columns, in the order of the pairs. *)
Example two_pairs_customized :
  exists dataset',
    customize time_input_name currents_file two_pairs = Ok dataset'
    /\ var_data dataset' "depth" = {| shape := [2]; flat := [4; 8]%Z |}
    /\ var_data dataset' "current_velocity"
       = {| shape := [3; 2]; flat := [1; 21; 2; 22; 3; 23]%Z |}
    /\ var_data dataset' "current_direction"
       = {| shape := [3; 2]; flat := [11; 31; 12; 32; 13; 33]%Z |}.
Proof. eexists. vm_compute. repeat split; reflexivity. Qed.


(** C7 fails on the code: with [Vel1 (mm/s)] and no [Dir1 (deg)] the hook
    counts no pair and then raises, where the claim has it complete with
    empty arrays. *)
Lemma partial_pair_raises :
  Dict.mem "Vel1 (mm/s)" (variables only_vel1) = true
  /\ Dict.mem "Dir1 (deg)" (variables only_vel1) = false
  /\ customize time_input_name currents_file only_vel1 = Err (DimsMismatch 1 2)
  /\ customize_raw_datasets time_input_name [(currents_file, only_vel1)]
     = Err (DimsMismatch 1 2).
Proof. vm_compute. auto. Qed.

Lemma missing_source_variable_raises_witness :
  customize_raw_datasets time_input_name [(surfacetemp_file, no_pairs)]
  = Err (CannotRename "Surface Temperature (C)").
Proof.
  apply (proj1 (missing_source_variable_raises time_input_name []
                  surfacetemp_file no_pairs [] (fun f d (I : In (f, d) []) =>
                                                  match I with end))).
  - vm_compute. reflexivity.
  - vm_compute. reflexivity.
Defined.

(** C9 fails on the code: for a key that contains surfacetemp and gill,
    each rule alone renames its variables, but the result of the round has
    the renaming of the gill rule only. *)
Lemma gill_overwrites_surfacetemp :
  PyStr.contains "surfacetemp" surfacetemp_gill_file = true
  /\ PyStr.contains "gill" surfacetemp_gill_file = true
  /\ (exists r, rename_vars met surfacetemp_mapping = Ok r
        /\ Dict.mem "surfacetemp - Surface Temperature (C)" (variables r) = true)
  /\ exists dataset',
       customize time_input_name surfacetemp_gill_file met = Ok dataset'
       /\ Dict.keys (variables dataset')
          = ["DataTimeStamp"; "Surface Temperature (C)";
             "gill_horizontal_wind_speed"; "gill_horizontal_wind_direction"].
Proof.
  split; [vm_compute; reflexivity|]. split; [vm_compute; reflexivity|].
  split; eexists; vm_compute; split; reflexivity.
Qed.

(** *** The further properties on concrete inputs *)


Lemma met_two_rules_outcome :
  customize time_input_name surfacetemp_gill_file met = Ok met_gill.
Proof. vm_compute. reflexivity. Qed.

Lemma last_rule_wins_witness :
  if PyStr.contains "currents" surfacetemp_gill_file
  then currents time_input_name met = Ok met_gill
  else if PyStr.contains "gill" surfacetemp_gill_file
       then rename_vars met name_mapping = Ok met_gill
  else if PyStr.contains "surfacetemp" surfacetemp_gill_file
       then rename_vars met surfacetemp_mapping = Ok met_gill
  else met_gill = met.
Proof.
  apply (last_rule_wins time_input_name surfacetemp_gill_file met met_gill
           met_two_rules_outcome).
Defined.

Lemma no_rule_mapping_unchanged_witness :
  customize_raw_datasets time_input_name [(met_file, met)] = Ok [(met_file, met)].
Proof.
  apply (no_rule_mapping_unchanged time_input_name [(met_file, met)]).
  - repeat constructor. simpl. tauto.
  - intros f [<-|[]]. vm_compute. auto.
Defined.

Lemma gill_mapping_outcome :
  customize_raw_datasets time_input_name [(met_file, met); (gill_file, met)]
  = Ok [(met_file, met); (gill_file, met_gill)].
Proof. vm_compute. reflexivity. Qed.

Lemma customize_raw_datasets_keys_witness :
  Dict.keys [(met_file, met); (gill_file, met_gill)]
  = Dict.keys [(met_file, met); (gill_file, met)].
Proof.
  apply (customize_raw_datasets_keys time_input_name _ _ gill_mapping_outcome).
Defined.

Lemma customize_raw_datasets_entries_witness :
  exists r, customize time_input_name gill_file met = Ok r
            /\ Dict.get gill_file [(met_file, met); (gill_file, met_gill)] = Some r.
Proof.
  apply (customize_raw_datasets_entries time_input_name
           [(met_file, met); (gill_file, met)] _ gill_file met).
  - repeat constructor; simpl; intuition discriminate.
  - exact gill_mapping_outcome.
  - simpl. auto.
Defined.

Lemma met_gill_outcome : rename_vars met name_mapping = Ok met_gill.
Proof. vm_compute. reflexivity. Qed.

Lemma rename_vars_lookup_witness :
  Dict.get (renamed name_mapping "Horizontal Speed (m/s)") (variables met_gill)
  = Some (col [5; 6; 7]%Z).
Proof.
  apply (proj2 (rename_vars_lookup met name_mapping met_gill met_gill_outcome)).
  simpl. auto.
Defined.

Lemma scan_stops_at_first_gap_witness :
  exists k,
    k <= List.length (variables two_pairs)
    /\ (forall i, i < k -> has_vel_and_dir two_pairs i = true)
    /\ has_vel_and_dir two_pairs k = false
    /\ collect (S (List.length (variables two_pairs))) two_pairs 0
         {| depth := []; vel_data := []; dir_data := [] |}
       = Ok {| depth := depths 0 k; vel_data := vel_columns two_pairs k;
               dir_data := dir_columns two_pairs k |}.
Proof. exact (scan_stops_at_first_gap two_pairs). Defined.



End PipelineFacts.
